(** * influxdb-export: the query builder of [export.py]

    A shallow embedding of the class [QueryGenerator] of [export.py] and of
    the Python built-ins its methods call ([int], [str.isdigit], string
    indexing and slicing, [str.format], [datetime], [timedelta]), followed
    by the properties of the builder.

    Strings are Rocq strings, sequences of 8-bit characters, read as the
    code points U+0000 to U+00FF (ASCII and Latin-1): what the built-ins
    do with a character ([str.isdigit], [int], the blanks [int] strips)
    is what Python does with that code point.  Strings with characters
    beyond U+00FF are outside the model.  Integers are unbounded, as in
    Python; the
    interpreter's optional limit on the number of digits [int] converts
    from a string ([sys.set_int_max_str_digits]) is taken as switched
    off.  The clock is an input: every call of [datetime.now] takes the
    next reading of it. *)

From Stdlib Require Import ZArith Ascii String List Lia.
From stdpp Require Import base option list strings gmap pretty.

Local Open Scope string_scope.
Local Open Scope Z_scope.

(* ===================================================================== *)
(** * Python values and exceptions *)
(* ===================================================================== *)

(** A scalar literal, as [ast.literal_eval] yields them from the
    configuration file. *)
Inductive atom : Type :=
| AStr (s : string)
| AInt (z : Z)
| ABool (b : bool)
| ANone.

(** The objects handed to [add_filter_conditions]: a scalar, a dict with
    string keys and scalar values, or a list of objects. *)
#[warnings="-register-all"]
Inductive pyobj : Type :=
| Atom (a : atom)
| Dict (d : gmap string atom)
| PyList (l : list pyobj).

(** The text of the [ValueError]s of the program.  Each constructor stands
    for one message; where the source builds the message with an f-string,
    the interpolated object is the constructor's argument. *)
Inductive message : Type :=
| MustBeDictionary (condition : pyobj)
  (* f"Invalid condition: {condition}. Must be a dictionary." *)
| MustContainKeys (condition : pyobj)
  (* f"Invalid condition: {condition}. Must contain 'field', 'operator', and 'value'." *)
| InvalidOperator (operator : atom)
  (* f"Invalid operator: {condition['operator']}. Must be one of {self.ALLOWED_OPERATORS}." *)
| NonNegativeIntegers
  (* "Days and hours must be non-negative integers." *)
| MustEndWithUnit
  (* "Window period must end with one of 's', 'm', 'h', 'd'." *)
| MustBePositiveInteger
  (* "Window period must be a positive integer." *)
| RawOrWindowed
  (* "Aggregation type must be either 'raw' or 'windowed'." *)
| InvalidLiteralForInt (s : string)
  (* raised by int(): f"invalid literal for int() with base 10: {s!r}" *)
| FormatError
  (* raised by str.format on a malformed template *).

Inductive exn : Type :=
| ValueError (msg : message)
| IndexError      (* "string index out of range" *)
| KeyError (key : string)
| TypeError       (* "... object is not iterable", "can't subtract offset-naive and offset-aware datetimes" *)
| OverflowError   (* "days=...; must have magnitude <= 999999999", "date value out of range" *).

Inductive result (A : Type) : Type :=
| Ok (a : A)
| Raise (e : exn).
Arguments Ok {A} a.
Arguments Raise {A} e.

Definition result_bind {A B : Type} (r : result A) (k : A -> result B) : result B :=
  match r with
  | Ok a => k a
  | Raise e => Raise e
  end.

(* ===================================================================== *)
(** * Strings: indexing, slicing, [isdigit], [int], [str] *)
(* ===================================================================== *)

Definition char (c : ascii) : string := String c EmptyString.

(** [s[-1]]: the last character, as a string of length one; [IndexError]
    on the empty string. *)
Fixpoint str_last (s : string) : result string :=
  match s with
  | EmptyString => Raise IndexError
  | String c EmptyString => Ok (char c)
  | String _ s' => str_last s'
  end.

(** [s[:-1]]: all characters but the last; the empty string stays empty. *)
Fixpoint str_init (s : string) : string :=
  match s with
  | EmptyString => EmptyString
  | String _ EmptyString => EmptyString
  | String c s' => String c (str_init s')
  end.

(** A decimal digit, [0] to [9]: the characters [int] reads as digits
    and [str.isdecimal] accepts. *)
Definition is_decimal (c : ascii) : bool :=
  let n := nat_of_ascii c in (48 <=? n)%nat && (n <=? 57)%nat.

(** A digit in the sense of [str.isdigit]: a decimal digit or one of the
    superscript digits U+00B2, U+00B3 and U+00B9, which [str.isdigit]
    accepts and [int] does not read. *)
Definition is_digit (c : ascii) : bool :=
  let n := nat_of_ascii c in
  is_decimal c || (n =? 178)%nat || (n =? 179)%nat || (n =? 185)%nat.

Fixpoint all_digits (s : string) : bool :=
  match s with
  | EmptyString => true
  | String c s' => is_digit c && all_digits s'
  end.

(** [s.isdigit()]: at least one character, and every character a digit. *)
Definition isdigit (s : string) : bool :=
  match s with
  | EmptyString => false
  | _ => all_digits s
  end.

Fixpoint all_decimal (s : string) : bool :=
  match s with
  | EmptyString => true
  | String c s' => is_decimal c && all_decimal s'
  end.

(** [s.isdecimal()]: at least one character, and every character a
    decimal digit. *)
Definition isdecimal (s : string) : bool :=
  match s with
  | EmptyString => false
  | _ => all_decimal s
  end.

Definition digit_value (c : ascii) : Z := Z.of_nat (nat_of_ascii c) - 48.

(** Whitespace that [int] strips: tab, line feed, vertical tab, form feed,
    carriage return, space, next line (U+0085) and no-break space
    (U+00A0). *)
Definition is_space (c : ascii) : bool :=
  let n := nat_of_ascii c in
  ((9 <=? n)%nat && (n <=? 13)%nat) || (n =? 32)%nat || (n =? 133)%nat || (n =? 160)%nat.

Fixpoint lstrip (s : string) : string :=
  match s with
  | EmptyString => EmptyString
  | String c s' => if is_space c then lstrip s' else s
  end.

Fixpoint rstrip (s : string) : string :=
  match s with
  | EmptyString => EmptyString
  | String c s' =>
      match rstrip s' with
      | EmptyString => if is_space c then EmptyString else char c
      | r => String c r
      end
  end.

Definition strip (s : string) : string := rstrip (lstrip s).

(** The digits of an integer literal: decimal digits, with single
    underscores allowed between two digits.  [prev] tells whether the
    previous character was a digit. *)
Fixpoint parse_digits (acc : Z) (prev : bool) (s : string) : option Z :=
  match s with
  | EmptyString => if prev then Some acc else None
  | String c s' =>
      if is_decimal c then parse_digits (10 * acc + digit_value c) true s'
      else if Ascii.eqb c "_" && prev then parse_digits acc false s'
      else None
  end.

(** [int(s)] for a string. *)
Definition int_of_str (s : string) : result Z :=
  let parsed :=
    match strip s with
    | String "+" r => parse_digits 0 false r
    | String "-" r => Z.opp <$> parse_digits 0 false r
    | t => parse_digits 0 false t
    end in
  match parsed with
  | Some z => Ok z
  | None => Raise (ValueError (InvalidLiteralForInt s))
  end.

(** The arguments of [set_time_range]: integers "or integer-valued
    strings" (the configuration file supplies strings). *)
Inductive intlike : Type :=
| IInt (z : Z)
| IStr (s : string).

(** [int(x)]. *)
Definition int (x : intlike) : result Z :=
  match x with
  | IInt z => Ok z
  | IStr s => int_of_str s
  end.

(** [str(a)], what an f-string puts in place of [{a}]. *)
Definition str (a : atom) : string :=
  match a with
  | AStr s => s
  | AInt z => pretty z
  | ABool true => "True"
  | ABool false => "False"
  | ANone => "None"
  end.

(** The numeric value of a string of decimal digits. *)
Definition decimal (s : string) : Z :=
  fold_left (fun acc c => 10 * acc + digit_value c) (list_ascii_of_string s) 0.

(* ===================================================================== *)
(** * [datetime] and [timedelta] *)
(* ===================================================================== *)

Definition US_PER_SECOND : Z := 1000000.
Definition US_PER_DAY : Z := 86400 * US_PER_SECOND.

(** A [timedelta]: Python normalises it to days, seconds and microseconds;
    two of them are equal when they span the same number of
    microseconds, which is what the model keeps. *)
Record Timedelta : Type := MkTimedelta { total_us : Z }.

(** [timedelta.max.days]. *)
Definition MAX_DELTA_DAYS : Z := 999999999.

(** [timedelta(days=..., seconds=..., hours=...)] on integers:
    [OverflowError] when the normalised number of days is beyond
    [MAX_DELTA_DAYS] in magnitude. *)
Definition timedelta (days seconds hours : Z) : result Timedelta :=
  let us := (days * 86400 + hours * 3600 + seconds) * US_PER_SECOND in
  let d := us / US_PER_DAY in
  if (- MAX_DELTA_DAYS <=? d) && (d <=? MAX_DELTA_DAYS)
  then Ok (MkTimedelta us)
  else Raise OverflowError.

Inductive timezone : Type := utc.

(** A [datetime]: microseconds since 0001-01-01T00:00:00 ([datetime.min]),
    naive ([tzinfo = None]) or aware. *)
Record Datetime : Type := MkDatetime { ticks : Z; tzinfo : option timezone }.

(** [datetime.max.toordinal()]: 9999-12-31 is day 3652059, counting
    0001-01-01 as day 1. *)
Definition MAX_ORDINAL : Z := 3652059.

Definition representable (t : Z) : bool :=
  (0 <=? t) && (t <? MAX_ORDINAL * US_PER_DAY).

(** [d - delta]: [OverflowError] when the result leaves years 1..9999. *)
Definition datetime_minus (d : Datetime) (delta : Timedelta) : result Datetime :=
  let t := ticks d - total_us delta in
  if representable t then Ok (MkDatetime t (tzinfo d)) else Raise OverflowError.

(** [a - b] on two datetimes: [TypeError] when one is naive and the other
    aware. *)
Definition datetime_diff (a b : Datetime) : result Timedelta :=
  match tzinfo a, tzinfo b with
  | None, None | Some utc, Some utc => Ok (MkTimedelta (ticks a - ticks b))
  | _, _ => Raise TypeError
  end.

(** The last [width] decimal digits of [n], zero-padded ("%02d", "%04d",
    "%06d" on numbers that fit). *)
Fixpoint zfill (width : nat) (n : Z) : string :=
  match width with
  | O => EmptyString
  | S w => zfill w (n / 10) +:+ char (ascii_of_nat (48 + Z.to_nat (n mod 10)))
  end.

(** Year, month and day of the day number [days] (0 is 0001-01-01) in the
    proleptic Gregorian calendar. *)
Definition civil_from_days (days : Z) : Z * Z * Z :=
  let z := days + 306 in
  let era := z / 146097 in
  let doe := z - era * 146097 in
  let yoe := (doe - doe / 1460 + doe / 36524 - doe / 146096) / 365 in
  let doy := doe - (365 * yoe + yoe / 4 - yoe / 100) in
  let mp := (5 * doy + 2) / 153 in
  let d := doy - (153 * mp + 2) / 5 + 1 in
  let m := if mp <? 10 then mp + 3 else mp - 9 in
  let y := yoe + era * 400 + (if m <=? 2 then 1 else 0) in
  (y, m, d).

(** [d.isoformat()]: "YYYY-MM-DDTHH:MM:SS", then ".ffffff" when the
    microsecond is not zero, then "+00:00" when [d] is aware (UTC). *)
Definition isoformat (d : Datetime) : string :=
  let '(y, m, dd) := civil_from_days (ticks d / US_PER_DAY) in
  let us_of_day := ticks d mod US_PER_DAY in
  let sec_of_day := us_of_day / US_PER_SECOND in
  let us := us_of_day mod US_PER_SECOND in
  zfill 4 y +:+ "-" +:+ zfill 2 m +:+ "-" +:+ zfill 2 dd +:+ "T"
  +:+ zfill 2 (sec_of_day / 3600) +:+ ":" +:+ zfill 2 (sec_of_day / 60 mod 60)
  +:+ ":" +:+ zfill 2 (sec_of_day mod 60)
  +:+ (if us =? 0 then EmptyString else "." +:+ zfill 6 us)
  +:+ (match tzinfo d with Some utc => "+00:00" | None => EmptyString end).

(* ===================================================================== *)
(** * State, clock and exceptions: the monad of the methods *)
(* ===================================================================== *)

(** The outside world as the builder sees it: a clock, read by each call
    of [datetime.now], and the offset of local time from UTC.  [clock n]
    is the instant (in microseconds since 0001-01-01T00:00:00 UTC) that
    the [n]-th reading returns; [reads] counts the readings so far. *)
Record World : Type := MkWorld { clock : nat -> Z; reads : nat; utcoffset : Z }.

(** Computations over a state [S] that may raise: the state a raising
    computation leaves behind is kept, as mutations made before a Python
    exception are. *)
Definition SE (S A : Type) : Type := S -> result A * S.

#[export] Instance SE_ret {S} : MRet (SE S) := fun A a s => (Ok a, s).
#[export] Instance SE_bind {S} : MBind (SE S) := fun A B k m s =>
  match m s with
  | (Ok a, s') => k a s'
  | (Raise e, s') => (Raise e, s')
  end.

Definition raise {S A} (e : exn) : SE S A := fun s => (Raise e, s).
Definition lift {S A} (r : result A) : SE S A := fun s => (r, s).
Definition get {S} : SE S S := fun s => (Ok s, s).
Definition modify {S} (f : S -> S) : SE S unit := fun s => (Ok tt, f s).

(** [datetime.now(tz)]: one reading of the clock; local naive time for
    [tz = None], aware UTC time for [tz = timezone.utc]. *)
Definition datetime_now (tz : option timezone) : SE World Datetime := fun w =>
  let t := clock w (reads w) in
  let d := match tz with
           | None => MkDatetime (t + utcoffset w) None
           | Some utc => MkDatetime t (Some utc)
           end in
  (Ok d, MkWorld (clock w) (S (reads w)) (utcoffset w)).

(* ===================================================================== *)
(** * [str.format] *)
(* ===================================================================== *)

Definition nl : string := char "010".
Definition dquote : string := char "034".

(** [template.format(k1=v1, ...)] with string arguments.  [field] is the
    name of the replacement field being read, if any.  A doubled brace
    stands for a brace; a field with an empty name asks for a positional
    argument, of which there is none ([IndexError]); a name that is not a
    keyword gives [KeyError].  Conversions and format specifications do
    not occur in the template of this program and are not interpreted. *)
Fixpoint format_from (kwargs : gmap string string) (field : option string)
    (template : string) : result string :=
  match template with
  | EmptyString =>
      match field with
      | None => Ok EmptyString
      | Some _ => Raise (ValueError FormatError)
      end
  | String c rest =>
      match field with
      | Some name =>
          if Ascii.eqb c "}" then
            match name with
            | EmptyString => Raise IndexError
            | _ =>
                match kwargs !! name with
                | Some v => result_bind (format_from kwargs None rest) (fun r => Ok (v +:+ r))
                | None => Raise (KeyError name)
                end
            end
          else format_from kwargs (Some (name +:+ char c)) rest
      | None =>
          if Ascii.eqb c "{" then
            match rest with
            | String "{" rest' =>
                result_bind (format_from kwargs None rest') (fun r => Ok (String "{" r))
            | _ => format_from kwargs (Some EmptyString) rest
            end
          else if Ascii.eqb c "}" then
            match rest with
            | String "}" rest' =>
                result_bind (format_from kwargs None rest') (fun r => Ok (String "}" r))
            | _ => Raise (ValueError FormatError)
            end
          else result_bind (format_from kwargs None rest) (fun r => Ok (String c r))
      end
  end.

Definition format (template : string) (kwargs : gmap string string) : result string :=
  format_from kwargs None template.

(* ===================================================================== *)
(** * The class [QueryGenerator] *)
(* ===================================================================== *)

(** The values of the parameter map. *)
Inductive pyval : Type :=
| VStr (s : string)
| VDatetime (d : Datetime)
| VTimedelta (t : Timedelta).

Record QueryGenerator : Type := MkQueryGenerator {
  ALLOWED_OPERATORS : list string;
  query : string;
  params : gmap string pyval;
  filter_conditions : string;
  aggregation_type : string
}.

(** The state the methods run in: the instance and the world. *)
Record State : Type := MkState { self : QueryGenerator; world : World }.

Definition Py (A : Type) : Type := SE State A.

(** A computation on the world alone, run by a method. *)
Definition io {A} (m : SE World A) : Py A := fun st =>
  let '(r, w) := m (world st) in (r, MkState (self st) w).

(** The instance with one attribute replaced. *)
Definition with_params (g : QueryGenerator) (p : gmap string pyval) : QueryGenerator :=
  MkQueryGenerator (ALLOWED_OPERATORS g) (query g) p (filter_conditions g) (aggregation_type g).

Definition with_filter_conditions (g : QueryGenerator) (s : string) : QueryGenerator :=
  MkQueryGenerator (ALLOWED_OPERATORS g) (query g) (params g) s (aggregation_type g).

Definition with_aggregation_type (g : QueryGenerator) (s : string) : QueryGenerator :=
  MkQueryGenerator (ALLOWED_OPERATORS g) (query g) (params g) (filter_conditions g) s.

(** [self.params[key] = v] *)
Definition set_param (key : string) (v : pyval) : Py unit :=
  modify (fun st =>
    MkState (with_params (self st) (<[key := v]> (params (self st)))) (world st)).

(** [self.filter_conditions += clause] *)
Definition append_filter_conditions (clause : string) : Py unit :=
  modify (fun st =>
    MkState (with_filter_conditions (self st) (filter_conditions (self st) +:+ clause))
      (world st)).

(** [self.aggregation_type = v] *)
Definition set_aggregation (v : string) : Py unit :=
  modify (fun st => MkState (with_aggregation_type (self st) v) (world st)).

(** The list assigned to [self.ALLOWED_OPERATORS] by the constructor. *)
Definition allowed_operators : list string := ["=="; "!="; "<"; ">"; "<="; ">="].

(** The string assigned to [self.query] by the constructor. *)
Definition query_template : string :=
  nl +:+ "                from(bucket: stringParam)" +:+ nl
  +:+ "                    |> range(start: timeRangeStart, stop: timeRangeStop)" +:+ nl
  +:+ "                    {filter_conditions}" +:+ nl
  +:+ "                     {aggregation}" +:+ nl
  +:+ "                    ".

(** [QueryGenerator(bucket)]: the constructor reads the clock twice, once
    for each timestamp, and stores ISO 8601 strings of naive local time. *)
Definition __init__ (bucket : string) : SE World QueryGenerator :=
  now1 ← datetime_now None;
  delta ← lift (timedelta 30 0 0);
  start ← lift (datetime_minus now1 delta);
  now2 ← datetime_now None;
  mret (MkQueryGenerator
          allowed_operators
          query_template
          (<["windowPeriod" := VStr "1d"]>
             (<["timeRangeStop" := VStr (isoformat now2)]>
                (<["timeRangeStart" := VStr (isoformat start)]>
                   (<["stringParam" := VStr bucket]> ∅))))
          EmptyString
          "windowed").

(** [x in l] for an object [x] and a list of strings [l]: only a string
    is equal to a string. *)
Definition atom_in (a : atom) (l : list string) : bool :=
  match a with
  | AStr s => bool_decide (s ∈ l)
  | _ => false
  end.

(** The clause appended for one condition. *)
Definition filter_clause (field operator value : atom) : string :=
  "|> filter(fn: (r) => r[" +:+ dquote +:+ str field +:+ dquote +:+ "] "
  +:+ str operator +:+ " " +:+ dquote +:+ str value +:+ dquote +:+ ")" +:+ nl.

(** The body of the loop of [add_filter_conditions], for one condition. *)
Definition add_filter_condition (condition : pyobj) : Py unit :=
  match condition with
  | Dict d =>
      match d !! "field", d !! "operator", d !! "value" with
      | Some field, Some operator, Some value =>
          st ← get;
          if negb (atom_in operator (ALLOWED_OPERATORS (self st)))
          then raise (ValueError (InvalidOperator operator))
          else append_filter_conditions (filter_clause field operator value)
      | _, _, _ => raise (ValueError (MustContainKeys condition))
      end
  | _ => raise (ValueError (MustBeDictionary condition))
  end.

Fixpoint for_each {A} (body : A -> Py unit) (l : list A) : Py unit :=
  match l with
  | [] => mret tt
  | x :: rest => body x ;; for_each body rest
  end.

(** [add_filter_conditions(conditions)]: a dict is wrapped in a list; the
    loop then runs over the elements of a list or over the characters of
    a string, and the other scalars are not iterable. *)
Definition add_filter_conditions (conditions : pyobj) : Py unit :=
  match conditions with
  | Dict _ => for_each add_filter_condition [conditions]
  | PyList l => for_each add_filter_condition l
  | Atom (AStr s) =>
      for_each add_filter_condition
        ((fun c => Atom (AStr (char c))) <$> list_ascii_of_string s)
  | Atom _ => raise TypeError
  end.

Definition set_time_range (days hours : intlike) : Py unit :=
  days ← lift (int days);
  hours ← lift (int hours);
  if (days <? 0) || (hours <? 0)
  then raise (ValueError NonNegativeIntegers)
  else
    time_delta ← lift (timedelta days 0 hours);
    now1 ← io (datetime_now (Some utc));
    start ← lift (datetime_minus now1 time_delta);
    set_param "timeRangeStart" (VDatetime start) ;;
    now2 ← io (datetime_now (Some utc));
    set_param "timeRangeStop" (VDatetime now2).

Definition time_dict : gmap string Z :=
  <["d" := 86400]> (<["h" := 3600]> (<["m" := 60]> (<["s" := 1]> ∅))).

(** [d[key]] *)
Definition getitem (d : gmap string Z) (key : string) : result Z :=
  match d !! key with
  | Some v => Ok v
  | None => Raise (KeyError key)
  end.

Definition set_window_period (window_period : string) : Py unit :=
  last ← lift (str_last window_period);
  if negb (bool_decide (last ∈ ["s"; "m"; "h"; "d"]))
  then raise (ValueError MustEndWithUnit)
  else if negb (isdigit (str_init window_period))
  then raise (ValueError MustBePositiveInteger)
  else
    n ← lift (int_of_str (str_init window_period));
    last ← lift (str_last window_period);
    mult ← lift (getitem time_dict last);
    let window_period := n * mult in
    window_period_duration ← lift (timedelta 0 window_period 0);
    set_param "windowPeriod" (VTimedelta window_period_duration).

Definition set_aggregation_type (aggregation_type : string) : Py unit :=
  if negb (bool_decide (aggregation_type ∈ ["raw"; "windowed"]))
  then raise (ValueError RawOrWindowed)
  else set_aggregation aggregation_type.

Definition windowed_aggregation : string :=
  "|> aggregateWindow(every: windowPeriod, fn: mean, createEmpty: false)" +:+ nl
  +:+ "|> yield(name: " +:+ dquote +:+ "mean" +:+ dquote +:+ ")".

Definition generate : Py (string * gmap string pyval) :=
  st ← get;
  let g := self st in
  let aggregation :=
    if String.eqb (aggregation_type g) "windowed"
    then windowed_aggregation
    else EmptyString in
  q ← lift (format (query g)
              (<["aggregation" := aggregation]>
                 (<["filter_conditions" := filter_conditions g]> ∅)));
  mret (q, params g).

(* ===================================================================== *)
(** * Vocabulary of the properties *)
(* ===================================================================== *)

(** What the constructor establishes and no method changes: the two
    attributes that are only read. *)
Definition constructed (g : QueryGenerator) : Prop :=
  ALLOWED_OPERATORS g = allowed_operators /\ query g = query_template.

(** A method keeps the invariant, whether it returns or raises. *)
Definition preserves {A} (m : Py A) : Prop :=
  forall st, constructed (self st) -> constructed (self (m st).2).

(** The field, operator and value of a condition that has all three. *)
Definition condition_parts (c : pyobj) : option (atom * atom * atom) :=
  match c with
  | Dict d =>
      match d !! "field", d !! "operator", d !! "value" with
      | Some f, Some o, Some v => Some (f, o, v)
      | _, _, _ => None
      end
  | _ => None
  end.

(** A valid filter condition: a mapping with the three keys whose
    operator is one of the allowed operators. *)
Definition valid_condition (c : pyobj) : bool :=
  match condition_parts c with
  | Some (_, o, _) => atom_in o allowed_operators
  | None => false
  end.

(** The filter clause of a condition. *)
Definition clause_of (c : pyobj) : string :=
  match condition_parts c with
  | Some (f, o, v) => filter_clause f o v
  | None => EmptyString
  end.

(** The clauses of a list of conditions, one after the other. *)
Fixpoint clauses (cs : list pyobj) : string :=
  match cs with
  | [] => EmptyString
  | c :: rest => clause_of c +:+ clauses rest
  end.

(** The three literal parts of the query template, around its two
    replacement fields. *)
Definition template_head : string :=
  nl +:+ "                from(bucket: stringParam)" +:+ nl
  +:+ "                    |> range(start: timeRangeStart, stop: timeRangeStop)" +:+ nl
  +:+ "                    ".
Definition template_mid : string := nl +:+ "                     ".
Definition template_tail : string := nl +:+ "                    ".

(** The query with a given filter block and aggregation segment. *)
Definition rendered (filters aggregation : string) : string :=
  template_head +:+ filters +:+ template_mid +:+ aggregation +:+ template_tail.

(** The aggregation segment [generate] chooses for an aggregation mode. *)
Definition aggregation_of (mode : string) : string :=
  if String.eqb mode "windowed" then windowed_aggregation else EmptyString.

(** The errors of [set_window_period]'s own validation. *)
Definition window_validation_error (r : result unit) : Prop :=
  r = Raise (ValueError MustEndWithUnit) \/ r = Raise (ValueError MustBePositiveInteger).

(** The unit suffixes and their length in seconds. *)
Definition unit_seconds (u : string) : option Z :=
  if String.eqb u "s" then Some 1
  else if String.eqb u "m" then Some 60
  else if String.eqb u "h" then Some 3600
  else if String.eqb u "d" then Some 86400
  else None.

(** A clock that advances by one microsecond at each reading, starting at
    2024-02-29T00:00:00 UTC, in a zone one hour ahead of UTC. *)
Definition ticking_world : World :=
  MkWorld (fun n => 738944 * US_PER_DAY + Z.of_nat n) 0 (3600 * US_PER_SECOND).

(** The builder [QueryGenerator("metrics")] constructed in that world, and
    the state after the construction. *)
Definition metrics_state : State :=
  match __init__ "metrics" ticking_world with
  | (Ok g, w) => MkState g w
  | (Raise _, w) => MkState (MkQueryGenerator [] EmptyString ∅ EmptyString EmptyString) w
  end.

(** The condition [{'field': 'host', 'operator': '==', 'value': 'server1'}]. *)
Definition host_condition : pyobj :=
  Dict (<["value" := AStr "server1"]>
          (<["operator" := AStr "=="]> (<["field" := AStr "host"]> ∅))).


(* ===================================================================== *)
(** * The rest of the module: [query_generator] and the file name *)
(* ===================================================================== *)

(** The values the module reads from [config.ini] and hands to the
    builder: the options are strings, and [filtered_fields] is the object
    [ast.literal_eval] made of its text. *)
Record Config : Type := MkConfig {
  my_bucket : string;
  time_range_days : string;
  time_range_hours : string;
  my_window_period : string;
  my_filtered_fields : pyobj;
  config_aggregation_type : string
}.

(** The aggregation type the module settles on: [raw] when the option is
    the string [raw], [windowed] for every other text. *)
Definition my_aggregation_type (c : Config) : string :=
  if String.eqb (config_aggregation_type c) "raw" then "raw" else "windowed".

(** [query_generator()]: a fresh builder, the four configuration calls
    in the order of the source, then [generate].  The builder is local:
    when a call raises, the exception leaves the function and only the
    world (the clock readings taken) remains. *)
Definition query_generator (c : Config) : SE World (string * gmap string pyval) := fun w =>
  match __init__ (my_bucket c) w with
  | (Raise e, w1) => (Raise e, w1)
  | (Ok generator, w1) =>
      let '(r, st) :=
        (set_time_range (IStr (time_range_days c)) (IStr (time_range_hours c)) ;;
         set_aggregation_type (my_aggregation_type c) ;;
         set_window_period (my_window_period c) ;;
         add_filter_conditions (my_filtered_fields c) ;;
         generate) (MkState generator w1) in
      (r, world st)
  end.

(** The name of the CSV file, [d.strftime('%Y-%m-%d_%H-%M-%S.csv')] of
    [export_csv].  How [%Y] prints a year below 1000 depends on the
    platform (zero-padded to four digits or not), so the text of the year
    is the parameter [year_text]. *)
Definition csv_filename (year_text : Z -> string) (d : Datetime) : string :=
  let '(y, m, dd) := civil_from_days (ticks d / US_PER_DAY) in
  let sec_of_day := ticks d mod US_PER_DAY / US_PER_SECOND in
  year_text y +:+ "-" +:+ zfill 2 m +:+ "-" +:+ zfill 2 dd +:+ "_"
  +:+ zfill 2 (sec_of_day / 3600) +:+ "-" +:+ zfill 2 (sec_of_day / 60 mod 60)
  +:+ "-" +:+ zfill 2 (sec_of_day mod 60) +:+ ".csv".

(** The condition [{'field': f, 'operator': o, 'value': v}] on strings. *)
Definition condition (f o v : string) : pyobj :=
  Dict (<["value" := AStr v]> (<["operator" := AStr o]> (<["field" := AStr f]> ∅))).

(** What [add_filter_conditions] may do to the state: the filter block
    gets longer at its end, and nothing else changes. *)
Definition grows_filters_only (st st' : State) : Prop :=
  ALLOWED_OPERATORS (self st') = ALLOWED_OPERATORS (self st)
  /\ query (self st') = query (self st)
  /\ params (self st') = params (self st)
  /\ aggregation_type (self st') = aggregation_type (self st)
  /\ world st' = world st
  /\ exists suffix,
       filter_conditions (self st') = filter_conditions (self st) +:+ suffix.

(** A computation whose final state, returned or raised from, is related
    to its initial state by [R]. *)
Definition keeps {A} (R : State -> State -> Prop) (m : Py A) : Prop :=
  forall st, R st (m st).2.

(** The configuration of the end-to-end example: bucket [metrics], one
    condition on [host], one day, window period [1h], windowed. *)
Definition metrics_config : Config :=
  MkConfig "metrics" "1" "0" "1h" (PyList [host_condition]) "windowed".

(* ===================================================================== *)
(** * The text of the clauses, written out *)
(* ===================================================================== *)



(** The clause of a field, an operator and a value, character for
    character: [|> filter(fn: (r) => r["field"] operator "value")] and a
    line break, with the three strings put in as they are. *)
Definition clause_text (t : string * string * string) : string :=
  "|> filter(fn: (r) => r[" +:+ dquote +:+ t.1.1 +:+ dquote +:+ "] " +:+ t.1.2 +:+ " "
  +:+ dquote +:+ t.2 +:+ dquote +:+ ")" +:+ nl.

(** One clause after the other, in the order of the list. *)
Fixpoint block_text (ts : list (string * string * string)) : string :=
  match ts with
  | [] => EmptyString
  | t :: rest => clause_text t +:+ block_text rest
  end.





(* ===================================================================== *)
(** * Lemmas on strings and on the monad *)
(* ===================================================================== *)

Ltac run_py :=
  unfold mbind, SE_bind, mret, SE_ret, lift, raise, get, modify, io,
    set_param, append_filter_conditions, set_aggregation; simpl.

Lemma str_app_cons (x : ascii) (a b : string) : String x a +:+ b = String x (a +:+ b).
Proof. reflexivity. Qed.

Lemma str_app_assoc (a b c : string) : (a +:+ b) +:+ c = a +:+ (b +:+ c).
Proof.
  induction a as [|x a IH]; [reflexivity|].
  rewrite !str_app_cons. f_equal. exact IH.
Qed.

Lemma str_app_empty_r (a : string) : a +:+ EmptyString = a.
Proof.
  induction a as [|x a IH]; [reflexivity|].
  rewrite str_app_cons. f_equal. exact IH.
Qed.

Lemma clauses_app (xs ys : list pyobj) : clauses (xs ++ ys) = clauses xs +:+ clauses ys.
Proof.
  induction xs as [|x xs IH]; simpl; [reflexivity|].
  now rewrite IH, str_app_assoc.
Qed.

(** The template has exactly the two replacement fields, so formatting
    it succeeds and puts the two arguments between its literal parts. *)
Lemma format_query_template (filters aggregation : string) :
  format query_template
    (<["aggregation" := aggregation]> (<["filter_conditions" := filters]> ∅))
  = Ok (rendered filters aggregation).
Proof. vm_compute. reflexivity. Qed.

Lemma constructed_with_params g p : constructed g -> constructed (with_params g p).
Proof. intros [H1 H2]; split; assumption. Qed.

Lemma constructed_with_filter_conditions g s :
  constructed g -> constructed (with_filter_conditions g s).
Proof. intros [H1 H2]; split; assumption. Qed.

Lemma constructed_with_aggregation_type g s :
  constructed g -> constructed (with_aggregation_type g s).
Proof. intros [H1 H2]; split; assumption. Qed.

Create HintDb builder.
#[local] Hint Resolve constructed_with_params constructed_with_filter_conditions
  constructed_with_aggregation_type : builder.

(** The constructor establishes the invariant. *)
Lemma init_constructed bucket w g w' :
  __init__ bucket w = (Ok g, w') -> constructed g.
Proof.
  unfold __init__. run_py.
  destruct (datetime_minus _ _); intros H; inversion H; subst.
  split; reflexivity.
Qed.

Lemma preserves_bind {A B} (m : Py A) (k : A -> Py B) :
  preserves m -> (forall a, preserves (k a)) -> preserves (m ≫= k).
Proof.
  intros Hm Hk st Hst. specialize (Hm st Hst).
  unfold mbind, SE_bind. destruct (m st) as [[a|e] st']; simpl in *; [|assumption].
  apply Hk; assumption.
Qed.

Lemma preserves_lift {A} (r : result A) : preserves (lift r).
Proof. intros st Hst; exact Hst. Qed.

Lemma preserves_raise {A} (e : exn) : preserves (@raise State A e).
Proof. intros st Hst; exact Hst. Qed.

Lemma preserves_get : preserves get.
Proof. intros st Hst; exact Hst. Qed.

Lemma preserves_ret {A} (a : A) : preserves (mret a).
Proof. intros st Hst; exact Hst. Qed.

Lemma preserves_io {A} (m : SE World A) : preserves (io m).
Proof. intros st Hst. unfold io. destruct (m (world st)); exact Hst. Qed.

Lemma preserves_set_param key v : preserves (set_param key v).
Proof. intros st Hst. simpl. auto with builder. Qed.

Lemma preserves_append_filter_conditions clause :
  preserves (append_filter_conditions clause).
Proof. intros st Hst. simpl. auto with builder. Qed.

Lemma preserves_set_aggregation v : preserves (set_aggregation v).
Proof. intros st Hst. simpl. auto with builder. Qed.

#[local] Hint Resolve preserves_lift preserves_raise preserves_get preserves_ret
  preserves_io preserves_set_param preserves_append_filter_conditions
  preserves_set_aggregation : builder.

Ltac preserve :=
  repeat first
    [ apply preserves_bind; [|intros ?]
    | match goal with |- preserves (if ?b then _ else _) => destruct b end
    | solve [auto with builder] ].

Lemma preserves_add_filter_condition c : preserves (add_filter_condition c).
Proof.
  unfold add_filter_condition. destruct c as [a|d|l]; [preserve| |preserve].
  destruct (d !! "field"), (d !! "operator"), (d !! "value"); preserve.
Qed.

Lemma preserves_for_each {A} (body : A -> Py unit) (l : list A) :
  (forall x, preserves (body x)) -> preserves (for_each body l).
Proof.
  intros Hbody. induction l as [|x l IH]; simpl; [auto with builder|].
  apply preserves_bind; [apply Hbody | intros _; exact IH].
Qed.

(** Every method keeps the invariant the constructor establishes, on
    every input, so the instances a program can hold are constructed
    ones. *)
Lemma methods_preserve_constructed :
  (forall conditions, preserves (add_filter_conditions conditions))
  /\ (forall days hours, preserves (set_time_range days hours))
  /\ (forall window_period, preserves (set_window_period window_period))
  /\ (forall mode, preserves (set_aggregation_type mode))
  /\ preserves generate.
Proof.
  repeat apply conj.
  - intros conditions. unfold add_filter_conditions.
    destruct conditions as [[s|z|b|]|d|l];
      solve [ apply preserves_for_each; apply preserves_add_filter_condition
            | auto with builder ].
  - intros days hours. unfold set_time_range. preserve.
  - intros wp. unfold set_window_period. preserve.
  - intros mode. unfold set_aggregation_type. preserve.
  - unfold generate. preserve.
Qed.

(** [generate] on a constructed instance: the rendering of the current
    state, which it leaves as it is. *)
Lemma generate_constructed g w :
  constructed g ->
  generate (MkState g w)
  = (Ok (rendered (filter_conditions g) (aggregation_of (aggregation_type g)), params g),
     MkState g w).
Proof.
  intros [_ Hq]. unfold generate. run_py. rewrite Hq.
  fold (aggregation_of (aggregation_type g)).
  rewrite format_query_template. reflexivity.
Qed.

(* ===================================================================== *)
(** * Filter conditions *)
(* ===================================================================== *)

Lemma add_valid_condition g w c :
  constructed g -> valid_condition c = true ->
  add_filter_condition c (MkState g w)
  = (Ok tt, MkState (with_filter_conditions g (filter_conditions g +:+ clause_of c)) w).
Proof.
  intros [Hops _] Hv. unfold valid_condition, clause_of in *.
  destruct c as [a|d|l]; simpl in *; try discriminate.
  destruct (d !! "field") as [f|]; [|discriminate].
  destruct (d !! "operator") as [o|]; [|discriminate].
  destruct (d !! "value") as [v|]; [|discriminate].
  run_py. rewrite Hops, Hv. reflexivity.
Qed.


Lemma for_each_valid cs : forall g w,
  constructed g -> Forall (fun c => valid_condition c = true) cs ->
  for_each add_filter_condition cs (MkState g w)
  = (Ok tt, MkState (with_filter_conditions g (filter_conditions g +:+ clauses cs)) w).
Proof.
  induction cs as [|c cs IH]; intros g w Hg Hcs.
  - simpl. run_py. rewrite str_app_empty_r. destruct g; reflexivity.
  - inversion Hcs as [|? ? Hc Hrest]; subst.
    simpl. unfold mbind, SE_bind. rewrite (add_valid_condition g w c Hg Hc).
    rewrite IH by auto with builder.
    unfold with_filter_conditions; cbn [filter_conditions ALLOWED_OPERATORS query params
      aggregation_type clauses].
    rewrite str_app_assoc. reflexivity.
Qed.















(* ===================================================================== *)
(** * Aggregation mode and rendering *)
(* ===================================================================== *)

(** C5. When the aggregation mode is [raw], [generate] returns a query
    whose aggregation segment is empty; when it is [windowed], the
    segment is the [aggregateWindow] clause with the [mean] reducer
    followed by the [yield] clause, which refers to the parameter
    [windowPeriod]; the parameter map returned with it is the stored
    one, so it binds [windowPeriod] to the stored window period. *)
Theorem generate_aggregation_segment (g : QueryGenerator) (w : World) :
  constructed g ->
  (aggregation_type g = "raw" ->
     generate (MkState g w)
     = (Ok (rendered (filter_conditions g) EmptyString, params g), MkState g w))
  /\ (aggregation_type g = "windowed" ->
        generate (MkState g w)
        = (Ok (rendered (filter_conditions g)
                 ("|> aggregateWindow(every: windowPeriod, fn: mean, createEmpty: false)"
                  +:+ nl +:+ "|> yield(name: " +:+ dquote +:+ "mean" +:+ dquote +:+ ")"),
               params g),
           MkState g w)).
Proof.
  intros Hg. split; intros Hmode; rewrite (generate_constructed g w Hg), Hmode; reflexivity.
Qed.

(** C6. On every constructed builder [generate] succeeds, leaves the
    builder (and the world) as they are, and a second call right after the
    first returns the same query and the same parameter map. *)
Theorem generate_idempotent (g : QueryGenerator) (w : World) :
  constructed g ->
  exists out,
    generate (MkState g w) = (Ok out, MkState g w)
    /\ generate (generate (MkState g w)).2 = (Ok out, MkState g w).
Proof.
  intros Hg. eexists. rewrite (generate_constructed g w Hg). simpl.
  rewrite (generate_constructed g w Hg). split; reflexivity.
Qed.

(** C7. [set_aggregation_type(mode)] raises its validation error exactly
    when [mode] is neither [raw] nor [windowed], and then changes
    nothing; on the two accepted modes it sets the aggregation mode to
    [mode] and changes nothing else. *)
Theorem set_aggregation_type_spec (g : QueryGenerator) (w : World) (mode : string) :
  ((set_aggregation_type mode (MkState g w)).1 = Raise (ValueError RawOrWindowed)
   <-> mode <> "raw" /\ mode <> "windowed")
  /\ (mode <> "raw" /\ mode <> "windowed" ->
        set_aggregation_type mode (MkState g w)
        = (Raise (ValueError RawOrWindowed), MkState g w))
  /\ (mode = "raw" \/ mode = "windowed" ->
        set_aggregation_type mode (MkState g w)
        = (Ok tt, MkState (MkQueryGenerator (ALLOWED_OPERATORS g) (query g) (params g)
                             (filter_conditions g) mode) w)).
Proof.
  unfold set_aggregation_type.
  destruct (decide (mode ∈ ["raw"; "windowed"])) as [Hin|Hout].
  - rewrite (bool_decide_eq_true_2 _ Hin). run_py.
    assert (mode = "raw" \/ mode = "windowed") as Hor.
    { rewrite !elem_of_cons, elem_of_nil in Hin. tauto. }
    split; [split|split].
    + discriminate.
    + tauto.
    + tauto.
    + reflexivity.
  - rewrite (bool_decide_eq_false_2 _ Hout). run_py.
    assert (mode <> "raw" /\ mode <> "windowed") as Hand.
    { rewrite !elem_of_cons, elem_of_nil in Hout. tauto. }
    split; [split|split].
    + intros _; exact Hand.
    + reflexivity.
    + intros _. destruct g; reflexivity.
    + tauto.
Qed.

(* ===================================================================== *)
(** * Time range *)
(* ===================================================================== *)

(** C3. When [days] or [hours] is negative, [set_time_range] raises its
    validation error before it reads the clock or touches the parameter
    map: the whole state is as it was before the call. *)
Theorem set_time_range_negative (g : QueryGenerator) (w : World)
    (days hours : intlike) (d h : Z) :
  int days = Ok d -> int hours = Ok h ->
  d < 0 \/ h < 0 ->
  set_time_range days hours (MkState g w)
  = (Raise (ValueError NonNegativeIntegers), MkState g w).
Proof.
  intros Hd Hh Hneg. unfold set_time_range. run_py. rewrite Hd, Hh.
  assert ((d <? 0) || (h <? 0) = true) as ->; [|reflexivity].
  apply orb_true_iff. destruct Hneg; [left | right]; apply Z.ltb_lt; assumption.
Qed.

(* ===================================================================== *)
(** * Window period *)
(* ===================================================================== *)

(** C10. On the empty string [set_window_period] raises [IndexError],
    from reading the last character, and not one of its validation
    errors; nothing is stored. *)
Theorem set_window_period_empty (g : QueryGenerator) (w : World) :
  set_window_period EmptyString (MkState g w) = (Raise IndexError, MkState g w)
  /\ ~ window_validation_error (set_window_period EmptyString (MkState g w)).1.
Proof.
  split; [reflexivity|].
  intros [H|H]; discriminate H.
Qed.

Lemma digit_not_space (c : ascii) : is_digit c = true -> is_space c = false.
Proof. destruct c as [[] [] [] [] [] [] [] []]; vm_compute; congruence. Qed.

Lemma decimal_is_digit (c : ascii) : is_decimal c = true -> is_digit c = true.
Proof. intros H. unfold is_digit. rewrite H. reflexivity. Qed.

Lemma digit_value_bounds (c : ascii) : is_decimal c = true -> 0 <= digit_value c <= 9.
Proof. destruct c as [[] [] [] [] [] [] [] []]; vm_compute; intuition congruence. Qed.

Lemma all_decimal_all_digits (s : string) : all_decimal s = true -> all_digits s = true.
Proof.
  induction s as [|c s IH]; [reflexivity|]. simpl.
  intros H. apply andb_true_iff in H as [Hc Hs].
  rewrite (decimal_is_digit c Hc), (IH Hs). reflexivity.
Qed.

Lemma all_digits_lstrip (s : string) : all_digits s = true -> lstrip s = s.
Proof.
  destruct s as [|c s]; [reflexivity|]. simpl.
  intros H. apply andb_true_iff in H as [Hc _].
  rewrite (digit_not_space c Hc). reflexivity.
Qed.

Lemma all_digits_rstrip (s : string) : all_digits s = true -> rstrip s = s.
Proof.
  induction s as [|c s IH]; [reflexivity|]. simpl.
  intros H. apply andb_true_iff in H as [Hc Hs].
  rewrite (IH Hs), (digit_not_space c Hc). destruct s; reflexivity.
Qed.

Lemma parse_all_decimal (s : string) : forall acc prev,
  all_decimal s = true ->
  parse_digits acc prev s
  = match s with
    | EmptyString => if prev then Some acc else None
    | _ => Some (fold_left (fun a c => 10 * a + digit_value c) (list_ascii_of_string s) acc)
    end.
Proof.
  induction s as [|c s IH]; intros acc prev H; [reflexivity|].
  simpl in H. apply andb_true_iff in H as [Hc Hs].
  simpl. rewrite Hc, (IH _ _ Hs). destruct s; reflexivity.
Qed.

(** A digit that is not a decimal digit stops [int]. *)
Lemma parse_not_decimal (s : string) : forall acc prev,
  all_digits s = true -> all_decimal s = false -> parse_digits acc prev s = None.
Proof.
  induction s as [|c s IH]; intros acc prev Hdig Hdec; [discriminate Hdec|].
  simpl in Hdig, Hdec. apply andb_true_iff in Hdig as [Hc Hs].
  cbn [parse_digits]. destruct (is_decimal c) eqn:Hcdec.
  - apply IH; assumption.
  - replace (Ascii.eqb c "_") with false; [reflexivity|].
    destruct c as [[] [] [] [] [] [] [] []]; try reflexivity; discriminate Hc.
Qed.

(** What the sign test of [int] sees on a string that begins with a
    digit: no sign. *)
Lemma int_of_str_digits (s : string) :
  isdigit s = true ->
  int_of_str s
  = match parse_digits 0 false s with
    | Some z => Ok z
    | None => Raise (ValueError (InvalidLiteralForInt s))
    end.
Proof.
  destruct s as [|c s]; [discriminate|]. unfold isdigit. intros H.
  unfold int_of_str, strip.
  rewrite (all_digits_lstrip _ H), (all_digits_rstrip _ H).
  simpl in H. apply andb_true_iff in H as [Hc _].
  destruct c as [[] [] [] [] [] [] [] []]; try discriminate Hc; reflexivity.
Qed.

Lemma isdecimal_isdigit (s : string) : isdecimal s = true -> isdigit s = true.
Proof. destruct s; [discriminate | apply all_decimal_all_digits]. Qed.

(** [int] on a run of decimal digits: its decimal value. *)
Lemma int_of_str_isdecimal (s : string) : isdecimal s = true -> int_of_str s = Ok (decimal s).
Proof.
  intros H. rewrite (int_of_str_digits s (isdecimal_isdigit s H)).
  destruct s as [|c s]; [discriminate|]. unfold isdecimal in H.
  rewrite (parse_all_decimal (String c s) 0 false H). reflexivity.
Qed.

(** [int] on a run of digits that are not all decimal: [ValueError]. *)
Lemma int_of_str_not_decimal (s : string) :
  isdigit s = true -> isdecimal s = false ->
  int_of_str s = Raise (ValueError (InvalidLiteralForInt s)).
Proof.
  intros Hdig Hdec. rewrite (int_of_str_digits s Hdig).
  destruct s as [|c s]; [discriminate|]. unfold isdigit in Hdig. unfold isdecimal in Hdec.
  rewrite (parse_not_decimal (String c s) 0 false Hdig Hdec). reflexivity.
Qed.

Lemma fold_digits_nonneg (l : list ascii) : forall acc,
  0 <= acc -> forallb is_decimal l = true ->
  0 <= fold_left (fun a c => 10 * a + digit_value c) l acc.
Proof.
  induction l as [|c l IH]; intros acc Hacc H; simpl; [assumption|].
  simpl in H. apply andb_true_iff in H as [Hc Hl].
  apply IH; [|assumption]. pose proof (digit_value_bounds c Hc). lia.
Qed.

Lemma all_decimal_forallb (s : string) :
  all_decimal s = forallb is_decimal (list_ascii_of_string s).
Proof. induction s as [|c s IH]; simpl; [reflexivity | now rewrite IH]. Qed.

Lemma decimal_nonneg (s : string) : all_decimal s = true -> 0 <= decimal s.
Proof.
  intros H. unfold decimal. apply fold_digits_nonneg; [lia|].
  rewrite <- all_decimal_forallb. assumption.
Qed.

Lemma isdecimal_all_decimal (s : string) : isdecimal s = true -> all_decimal s = true.
Proof. destruct s; [discriminate | trivial]. Qed.

(** [timedelta(seconds=n)] for a non-negative [n]. *)
Lemma timedelta_seconds (n : Z) :
  0 <= n ->
  timedelta 0 n 0
  = if n / 86400 <=? MAX_DELTA_DAYS
    then Ok (MkTimedelta (n * US_PER_SECOND))
    else Raise OverflowError.
Proof.
  intros Hn. unfold timedelta.
  replace (0 * 86400 + 0 * 3600 + n) with n by lia.
  unfold US_PER_DAY.
  rewrite (Z.div_mul_cancel_r n 86400 US_PER_SECOND) by (unfold US_PER_SECOND; lia).
  assert (0 <= n / 86400) by (apply Z.div_pos; lia).
  replace (- MAX_DELTA_DAYS <=? n / 86400) with true; [reflexivity|].
  symmetry. apply Z.leb_le. unfold MAX_DELTA_DAYS. lia.
Qed.

Lemma str_last_cons (c : ascii) (s : string) : exists x, str_last (String c s) = Ok (char x).
Proof.
  revert c. induction s as [|c' s IH]; intros c; simpl; [eexists; reflexivity|].
  apply (IH c').
Qed.

Lemma str_last_ok (s last : string) : str_last s = Ok last -> exists x, last = char x.
Proof.
  destruct s as [|c s]; [discriminate|].
  destruct (str_last_cons c s) as [x Hx]. rewrite Hx. intros [= <-]. eauto.
Qed.

(** The suffix test of the method and the multiplier table agree with
    [unit_seconds]. *)
Lemma unit_lookup (last : string) :
  match unit_seconds last with
  | Some mult =>
      bool_decide (last ∈ ["s"; "m"; "h"; "d"]) = true
      /\ getitem time_dict last = Ok mult /\ 0 < mult
  | None => bool_decide (last ∈ ["s"; "m"; "h"; "d"]) = false
  end.
Proof.
  unfold unit_seconds.
  destruct (String.eqb_spec last "s") as [->|Hs]; [vm_compute; intuition congruence|].
  destruct (String.eqb_spec last "m") as [->|Hm]; [vm_compute; intuition congruence|].
  destruct (String.eqb_spec last "h") as [->|Hh]; [vm_compute; intuition congruence|].
  destruct (String.eqb_spec last "d") as [->|Hd]; [vm_compute; intuition congruence|].
  apply bool_decide_eq_false_2. rewrite !elem_of_cons, elem_of_nil. tauto.
Qed.

(** What [set_window_period] does on a string that has a last character. *)
Lemma set_window_period_run (g : QueryGenerator) (w : World) (wp last : string) :
  str_last wp = Ok last ->
  set_window_period wp (MkState g w)
  = match unit_seconds last with
    | None => (Raise (ValueError MustEndWithUnit), MkState g w)
    | Some mult =>
        if isdigit (str_init wp) then
          if isdecimal (str_init wp) then
            if decimal (str_init wp) * mult / 86400 <=? MAX_DELTA_DAYS
            then (Ok tt,
                  MkState (with_params g
                             (<["windowPeriod" :=
                                  VTimedelta (MkTimedelta
                                                (decimal (str_init wp) * mult
                                                 * US_PER_SECOND))]>
                                (params g))) w)
            else (Raise OverflowError, MkState g w)
          else (Raise (ValueError (InvalidLiteralForInt (str_init wp))), MkState g w)
        else (Raise (ValueError MustBePositiveInteger), MkState g w)
    end.
Proof.
  intros Hlast. unfold set_window_period.
  unfold mbind, SE_bind, lift at 1. rewrite Hlast.
  pose proof (unit_lookup last) as Hu.
  destruct (unit_seconds last) as [mult|].
  - destruct Hu as (Hin & Hget & Hpos). rewrite Hin. cbn [negb].
    destruct (isdigit (str_init wp)) eqn:Hdig; cbn [negb]; [|reflexivity].
    destruct (isdecimal (str_init wp)) eqn:Hdec.
    + pose proof (decimal_nonneg _ (isdecimal_all_decimal _ Hdec)) as Hnn.
      cbv beta iota delta [lift]. rewrite (int_of_str_isdecimal _ Hdec).
      cbv beta iota. rewrite Hget. cbv beta iota.
      rewrite timedelta_seconds by nia.
      destruct (decimal (str_init wp) * mult / 86400 <=? MAX_DELTA_DAYS); reflexivity.
    + cbv beta iota delta [lift]. rewrite (int_of_str_not_decimal _ Hdig Hdec).
      reflexivity.
  - rewrite Hu. reflexivity.
Qed.

(** C4 (as amended).  [set_window_period(w)] raises one of its two
    validation errors exactly when [w] has a last character and that
    character is not one of s, m, h, d or the characters before it are
    not a non-empty run of digits in the sense of [str.isdigit].  On an
    accepted input whose prefix is made of decimal digits it stores,
    under [windowPeriod], the duration of prefix * multiplier seconds,
    with the multipliers s:1, m:60, h:3600, d:86400, provided that
    duration is within the range of [timedelta] (at most 999999999
    days); beyond that range the call raises [OverflowError].  On an
    accepted input whose prefix has a digit that is not a decimal digit
    (a superscript digit), [int] raises its own [ValueError].  In both
    cases nothing is stored. *)
Theorem set_window_period_spec (g : QueryGenerator) (w : World) (wp : string) :
  let r := set_window_period wp (MkState g w) in
  (window_validation_error r.1
   <-> exists last, str_last wp = Ok last
         /\ (unit_seconds last = None \/ isdigit (str_init wp) = false))
  /\ (forall last mult,
        str_last wp = Ok last -> unit_seconds last = Some mult ->
        isdigit (str_init wp) = true ->
        let seconds := decimal (str_init wp) * mult in
        (isdecimal (str_init wp) = true -> seconds / 86400 <= MAX_DELTA_DAYS ->
           r = (Ok tt,
                MkState (with_params g
                           (<["windowPeriod" :=
                                VTimedelta (MkTimedelta (seconds * US_PER_SECOND))]>
                              (params g))) w))
        /\ (isdecimal (str_init wp) = true -> MAX_DELTA_DAYS < seconds / 86400 ->
              r = (Raise OverflowError, MkState g w))
        /\ (isdecimal (str_init wp) = false ->
              r = (Raise (ValueError (InvalidLiteralForInt (str_init wp))), MkState g w))).
Proof.
  intros r. subst r. split.
  - destruct wp as [|c s].
    + change (set_window_period EmptyString (MkState g w))
        with (@Raise unit IndexError, MkState g w).
      split.
      * intros [H|H]; discriminate H.
      * intros (last & H & _). discriminate H.
    + destruct (str_last_cons c s) as [x Hx].
      rewrite (set_window_period_run g w _ _ Hx). split.
      * intros Herr. exists (char x). split; [assumption|].
        destruct (unit_seconds (char x)) as [mult|]; [|left; reflexivity].
        destruct (isdigit (str_init (String c s))); [|right; reflexivity].
        destruct (isdecimal (str_init (String c s)));
          [destruct (_ <=? _)|]; destruct Herr as [H|H]; discriminate H.
      * intros (last & Hlast & Hbad). rewrite Hx in Hlast. injection Hlast as <-.
        destruct (unit_seconds (char x)) as [mult|].
        -- destruct Hbad as [Hbad|Hbad]; [discriminate Hbad|]. rewrite Hbad.
           right; reflexivity.
        -- left; reflexivity.
  - intros last mult Hlast Hunit Hdig seconds.
    rewrite (set_window_period_run g w _ _ Hlast), Hunit, Hdig. subst seconds.
    split; [|split].
    + intros Hdec Hrange. apply Z.leb_le in Hrange. rewrite Hdec, Hrange. reflexivity.
    + intros Hdec Hrange. apply Z.leb_gt in Hrange. rewrite Hdec, Hrange. reflexivity.
    + intros Hdec. rewrite Hdec. reflexivity.
Qed.

(** The window periods of the specification's examples. *)
Example set_window_period_examples :
  (fun wp => params (self (set_window_period wp metrics_state).2) !! "windowPeriod")
    <$> ["30s"; "5m"; "2h"; "1d"]
  = (fun seconds => Some (VTimedelta (MkTimedelta (seconds * US_PER_SECOND))))
    <$> [30; 300; 7200; 86400].
Proof. vm_compute. reflexivity. Qed.

Example set_window_period_malformed :
  (fun wp => (set_window_period wp metrics_state).1) <$> ["10x"; "abc"; "-5s"]
  = [Raise (ValueError MustEndWithUnit); Raise (ValueError MustEndWithUnit);
     Raise (ValueError MustBePositiveInteger)].
Proof. vm_compute. reflexivity. Qed.

(** C4, as stated, fails on a window period of a thousand million days:
    it passes both checks of [set_window_period], but no [timedelta] is
    that long, so the call raises [OverflowError] and the stored window
    period is not the duration of prefix * multiplier seconds. *)
Lemma set_window_period_overflow :
  let wp := "1000000000d" in
  str_last wp = Ok "d"
  /\ isdigit (str_init wp) = true
  /\ set_window_period wp metrics_state = (Raise OverflowError, metrics_state)
  /\ params (self (set_window_period wp metrics_state).2) !! "windowPeriod"
     <> Some (VTimedelta (MkTimedelta (1000000000 * 86400 * US_PER_SECOND))).
Proof.
  cbv zeta. split; [reflexivity|]. split; [reflexivity|]. split.
  - reflexivity.
  - vm_compute. discriminate.
Qed.

(** It fails as well on superscript two followed by [s]: [str.isdigit]
    accepts the prefix, so both checks pass, but [int] does not read a
    superscript digit and raises its own [ValueError]; the window period
    stays what it was. *)
Example set_window_period_superscript :
  let wp := String "178" "s" in
  str_last wp = Ok "s"
  /\ isdigit (str_init wp) = true
  /\ set_window_period wp metrics_state
     = (Raise (ValueError (InvalidLiteralForInt (str_init wp))), metrics_state)
  /\ ~ window_validation_error (set_window_period wp metrics_state).1.
Proof.
  cbv zeta. split; [reflexivity|]. split; [reflexivity|]. split; [reflexivity|].
  intros [H|H]; discriminate H.
Qed.

(* ===================================================================== *)
(** * Time range: the stored span *)
(* ===================================================================== *)

(** [timedelta(days=d, hours=h)] for non-negative [d] and [h]. *)
Lemma timedelta_days_hours (d h : Z) :
  0 <= d -> 0 <= h ->
  timedelta d 0 h
  = if (d * 24 + h) / 24 <=? MAX_DELTA_DAYS
    then Ok (MkTimedelta ((d * 24 + h) * 3600 * US_PER_SECOND))
    else Raise OverflowError.
Proof.
  intros Hd Hh.
  assert (timedelta d 0 h = timedelta 0 ((d * 24 + h) * 3600) 0) as ->.
  { unfold timedelta.
    replace (d * 86400 + h * 3600 + 0) with (0 * 86400 + 0 * 3600 + (d * 24 + h) * 3600)
      by lia.
    reflexivity. }
  rewrite timedelta_seconds by lia.
  change 86400 with (24 * 3600).
  rewrite (Z.div_mul_cancel_r (d * 24 + h) 24 3600) by lia.
  reflexivity.
Qed.

(** What [set_time_range] does on non-negative offsets. *)
Lemma set_time_range_run (g : QueryGenerator) (w : World) (days hours : intlike) (d h : Z) :
  int days = Ok d -> int hours = Ok h -> 0 <= d -> 0 <= h ->
  let offset := (d * 24 + h) * 3600 * US_PER_SECOND in
  let t1 := clock w (reads w) in
  let t2 := clock w (S (reads w)) in
  set_time_range days hours (MkState g w)
  = if (d * 24 + h) / 24 <=? MAX_DELTA_DAYS then
      if representable (t1 - offset) then
        (Ok tt,
         MkState
           (with_params g
              (<["timeRangeStop" := VDatetime (MkDatetime t2 (Some utc))]>
                 (<["timeRangeStart" := VDatetime (MkDatetime (t1 - offset) (Some utc))]>
                    (params g))))
           (MkWorld (clock w) (S (S (reads w))) (utcoffset w)))
      else (Raise OverflowError, MkState g (MkWorld (clock w) (S (reads w)) (utcoffset w)))
    else (Raise OverflowError, MkState g w).
Proof.
  intros Hdays Hhours Hd Hh offset t1 t2. unfold set_time_range.
  cbv beta iota delta [mbind SE_bind lift]. rewrite Hdays, Hhours. cbv beta iota.
  assert ((d <? 0) || (h <? 0) = false) as ->.
  { apply orb_false_iff. split; apply Z.ltb_ge; assumption. }
  rewrite timedelta_days_hours by assumption.
  destruct ((d * 24 + h) / 24 <=? MAX_DELTA_DAYS); [|reflexivity].
  cbv beta iota zeta delta [io datetime_now world self datetime_minus ticks total_us tzinfo].
  fold offset t1. destruct (representable (t1 - offset)); reflexivity.
Qed.

(** C2 (as amended).  For non-negative [days] and [hours] (integers, or
    strings that [int] accepts) whose offset a [timedelta] can hold and
    that do not reach before year 1, [set_time_range] succeeds and the
    stored stop minus the stored start is days * 24 hours + hours plus
    the time that passed between the two readings of the clock the
    method makes; it is exactly days * 24 hours + hours when both
    readings return the same instant. *)
Theorem set_time_range_span (g : QueryGenerator) (w : World) (days hours : intlike) (d h : Z) :
  int days = Ok d -> int hours = Ok h -> 0 <= d -> 0 <= h ->
  let offset := (d * 24 + h) * 3600 * US_PER_SECOND in
  let t1 := clock w (reads w) in
  let t2 := clock w (S (reads w)) in
  (d * 24 + h) / 24 <= MAX_DELTA_DAYS ->
  representable (t1 - offset) = true ->
  exists start stop st',
    set_time_range days hours (MkState g w) = (Ok tt, st')
    /\ params (self st') !! "timeRangeStart" = Some (VDatetime start)
    /\ params (self st') !! "timeRangeStop" = Some (VDatetime stop)
    /\ datetime_diff stop start = Ok (MkTimedelta (offset + (t2 - t1)))
    /\ (t2 = t1 -> datetime_diff stop start = Ok (MkTimedelta offset)).
Proof.
  intros Hdays Hhours Hd Hh offset t1 t2 Hrange Hrep.
  pose proof (set_time_range_run g w days hours d h Hdays Hhours Hd Hh) as Hrun.
  cbv zeta in Hrun. fold offset t1 t2 in Hrun.
  apply Z.leb_le in Hrange. rewrite Hrange, Hrep in Hrun.
  eexists _, _, _. split; [exact Hrun|]. cbn [self with_params params].
  split; [|split; [|split]].
  - rewrite lookup_insert_ne by discriminate. apply lookup_insert_eq.
  - apply lookup_insert_eq.
  - unfold datetime_diff. cbn [tzinfo ticks]. do 2 f_equal. lia.
  - intros Heq. unfold datetime_diff. cbn [tzinfo ticks]. do 2 f_equal. lia.
Qed.

(** C2, as stated, fails when the clock moves between the two readings
    of [set_time_range]: with one microsecond between them, the stored
    span of [set_time_range(1, 0)] is one microsecond more than 24
    hours. *)
Lemma set_time_range_span_differs :
  let st' := (set_time_range (IInt 1) (IInt 0) metrics_state).2 in
  let start := MkDatetime (738943 * US_PER_DAY + 2) (Some utc) in
  let stop := MkDatetime (738944 * US_PER_DAY + 3) (Some utc) in
  (set_time_range (IInt 1) (IInt 0) metrics_state).1 = Ok tt
  /\ params (self st') !! "timeRangeStart" = Some (VDatetime start)
  /\ params (self st') !! "timeRangeStop" = Some (VDatetime stop)
  /\ datetime_diff stop start = Ok (MkTimedelta (24 * 3600 * US_PER_SECOND + 1))
  /\ datetime_diff stop start <> Ok (MkTimedelta ((1 * 24 + 0) * 3600 * US_PER_SECOND)).
Proof.
  cbv zeta. split; [reflexivity|]. split; [vm_compute; reflexivity|].
  split; [vm_compute; reflexivity|]. split; [vm_compute; reflexivity|].
  vm_compute. discriminate.
Qed.

(* ===================================================================== *)
(** * Construction *)
(* ===================================================================== *)

(** C8.  What the constructor stores: the bucket; two ISO 8601 strings of
    naive local time, the first reading of the clock less 30 days and the
    second reading; and, as window period, the string [1d] itself, not a
    duration, whereas [set_window_period] stores a [timedelta] for the
    same text.  The aggregation mode is [windowed] and the filter block
    is empty. *)
Theorem init_stores (bucket : string) (w : World) (g : QueryGenerator) (w' : World) :
  __init__ bucket w = (Ok g, w') ->
  params g !! "stringParam" = Some (VStr bucket)
  /\ params g !! "timeRangeStart"
     = Some (VStr (isoformat
                     (MkDatetime (clock w (reads w) + utcoffset w - 30 * US_PER_DAY) None)))
  /\ params g !! "timeRangeStop"
     = Some (VStr (isoformat (MkDatetime (clock w (S (reads w)) + utcoffset w) None)))
  /\ params g !! "windowPeriod" = Some (VStr "1d")
  /\ (forall t, params g !! "windowPeriod" <> Some (VTimedelta t))
  /\ params (self (set_window_period "1d" (MkState g w')).2) !! "windowPeriod"
     = Some (VTimedelta (MkTimedelta (86400 * US_PER_SECOND)))
  /\ aggregation_type g = "windowed"
  /\ filter_conditions g = EmptyString.
Proof.
  unfold __init__.
  cbv beta iota delta [mbind SE_bind mret SE_ret lift datetime_now].
  change (timedelta 30 0 0) with (Ok (MkTimedelta (30 * US_PER_DAY))).
  cbv beta iota zeta delta [datetime_minus ticks total_us tzinfo clock reads utcoffset].
  match goal with |- context [representable ?t] => destruct (representable t) end;
    intros H; inversion H; subst; clear H.
  cbn [params aggregation_type filter_conditions].
  assert (forall (m : gmap string pyval),
            (<["windowPeriod" := VStr "1d"]> m) !! "windowPeriod" = Some (VStr "1d")) as Hw
    by (intros m; apply lookup_insert_eq).
  repeat apply conj.
  - rewrite !lookup_insert_ne by discriminate. apply lookup_insert_eq.
  - rewrite !lookup_insert_ne by discriminate. apply lookup_insert_eq.
  - rewrite !lookup_insert_ne by discriminate. apply lookup_insert_eq.
  - apply Hw.
  - intros t. rewrite Hw. discriminate.
  - rewrite (set_window_period_run _ _ "1d" "d") by reflexivity.
    reflexivity.
  - reflexivity.
  - reflexivity.
Qed.

(* ===================================================================== *)
(** * The properties at concrete inputs *)
(* ===================================================================== *)

Lemma metrics_constructed : constructed (self metrics_state).
Proof. split; reflexivity. Defined.

Example host_clause :
  clauses [host_condition]
  = "|> filter(fn: (r) => r[" +:+ dquote +:+ "host" +:+ dquote +:+ "] == "
    +:+ dquote +:+ "server1" +:+ dquote +:+ ")" +:+ nl.
Proof. vm_compute. reflexivity. Qed.

Example region_host_block :
  block_text [("region", "!=", "eu"); ("host", "==", "server1")]
  = "|> filter(fn: (r) => r[" +:+ dquote +:+ "region" +:+ dquote +:+ "] != "
    +:+ dquote +:+ "eu" +:+ dquote +:+ ")" +:+ nl
    +:+ "|> filter(fn: (r) => r[" +:+ dquote +:+ "host" +:+ dquote +:+ "] == "
    +:+ dquote +:+ "server1" +:+ dquote +:+ ")" +:+ nl.
Proof. vm_compute. reflexivity. Qed.




Lemma generate_aggregation_segment_witness :
  constructed (self metrics_state)
  /\ aggregation_type (self metrics_state) = "windowed"
  /\ generate (MkState (self metrics_state) (world metrics_state))
     = (Ok (rendered (filter_conditions (self metrics_state))
              ("|> aggregateWindow(every: windowPeriod, fn: mean, createEmpty: false)"
               +:+ nl +:+ "|> yield(name: " +:+ dquote +:+ "mean" +:+ dquote +:+ ")"),
            params (self metrics_state)),
        MkState (self metrics_state) (world metrics_state)).
Proof.
  split; [exact metrics_constructed|]. split; [reflexivity|].
  exact (proj2 (generate_aggregation_segment (self metrics_state) (world metrics_state)
                  metrics_constructed) eq_refl).
Defined.

Lemma generate_idempotent_witness :
  constructed (self metrics_state)
  /\ exists out,
       generate (MkState (self metrics_state) (world metrics_state))
       = (Ok out, MkState (self metrics_state) (world metrics_state))
       /\ generate (generate (MkState (self metrics_state) (world metrics_state))).2
          = (Ok out, MkState (self metrics_state) (world metrics_state)).
Proof.
  split; [exact metrics_constructed|].
  exact (generate_idempotent (self metrics_state) (world metrics_state) metrics_constructed).
Defined.

Lemma set_aggregation_type_spec_witness :
  ("raw" = "raw" \/ "raw" = "windowed")
  /\ set_aggregation_type "raw" (MkState (self metrics_state) (world metrics_state))
     = (Ok tt,
        MkState (MkQueryGenerator (ALLOWED_OPERATORS (self metrics_state))
                   (query (self metrics_state)) (params (self metrics_state))
                   (filter_conditions (self metrics_state)) "raw")
          (world metrics_state)).
Proof.
  split; [left; reflexivity|].
  exact (proj2 (proj2 (set_aggregation_type_spec (self metrics_state) (world metrics_state)
                         "raw")) (or_introl eq_refl)).
Defined.

Lemma set_time_range_negative_witness :
  int (IStr "-3") = Ok (-3) /\ int (IInt 2) = Ok 2 /\ (-3 < 0 \/ 2 < 0)
  /\ set_time_range (IStr "-3") (IInt 2) (MkState (self metrics_state) (world metrics_state))
     = (Raise (ValueError NonNegativeIntegers),
        MkState (self metrics_state) (world metrics_state)).
Proof.
  assert (-3 < 0 \/ 2 < 0) as Hneg by (left; lia).
  split; [reflexivity|]. split; [reflexivity|]. split; [exact Hneg|].
  exact (set_time_range_negative (self metrics_state) (world metrics_state)
           (IStr "-3") (IInt 2) (-3) 2 eq_refl eq_refl Hneg).
Defined.

Lemma set_time_range_span_witness :
  int (IStr "1") = Ok 1 /\ int (IInt 0) = Ok 0 /\ 0 <= 1 /\ 0 <= 0
  /\ (1 * 24 + 0) / 24 <= MAX_DELTA_DAYS
  /\ representable (clock (world metrics_state) (reads (world metrics_state))
                    - (1 * 24 + 0) * 3600 * US_PER_SECOND) = true
  /\ exists start stop st',
       set_time_range (IStr "1") (IInt 0) (MkState (self metrics_state) (world metrics_state))
       = (Ok tt, st')
       /\ params (self st') !! "timeRangeStart" = Some (VDatetime start)
       /\ params (self st') !! "timeRangeStop" = Some (VDatetime stop)
       /\ datetime_diff stop start
          = Ok (MkTimedelta
                  ((1 * 24 + 0) * 3600 * US_PER_SECOND
                   + (clock (world metrics_state) (S (reads (world metrics_state)))
                      - clock (world metrics_state) (reads (world metrics_state))))).
Proof.
  assert (0 <= 1) as H1 by lia.
  assert (0 <= 0) as H0 by lia.
  assert ((1 * 24 + 0) / 24 <= MAX_DELTA_DAYS) as Hrange by (vm_compute; discriminate).
  assert (representable (clock (world metrics_state) (reads (world metrics_state))
                         - (1 * 24 + 0) * 3600 * US_PER_SECOND) = true) as Hrep
    by (vm_compute; reflexivity).
  split; [reflexivity|]. split; [reflexivity|]. split; [exact H1|]. split; [exact H0|].
  split; [exact Hrange|]. split; [exact Hrep|].
  destruct (set_time_range_span (self metrics_state) (world metrics_state)
              (IStr "1") (IInt 0) 1 0 eq_refl eq_refl H1 H0 Hrange Hrep)
    as (start & stop & st' & Hrun & Hstart & Hstop & Hdiff & _).
  exists start, stop, st'. repeat apply conj; assumption.
Defined.

Lemma set_window_period_spec_witness :
  str_last "30s" = Ok "s" /\ unit_seconds "s" = Some 1
  /\ isdigit (str_init "30s") = true
  /\ isdecimal (str_init "30s") = true
  /\ decimal (str_init "30s") * 1 / 86400 <= MAX_DELTA_DAYS
  /\ set_window_period "30s" (MkState (self metrics_state) (world metrics_state))
     = (Ok tt,
        MkState (with_params (self metrics_state)
                   (<["windowPeriod" :=
                        VTimedelta (MkTimedelta (decimal (str_init "30s") * 1 * US_PER_SECOND))]>
                      (params (self metrics_state))))
          (world metrics_state)).
Proof.
  assert (decimal (str_init "30s") * 1 / 86400 <= MAX_DELTA_DAYS) as Hrange
    by (vm_compute; discriminate).
  split; [reflexivity|]. split; [reflexivity|]. split; [reflexivity|].
  split; [reflexivity|]. split; [exact Hrange|].
  exact (proj1 (proj2 (set_window_period_spec (self metrics_state) (world metrics_state) "30s")
                  "s" 1 eq_refl eq_refl eq_refl) eq_refl Hrange).
Defined.

Lemma init_stores_witness :
  __init__ "metrics" ticking_world = (Ok (self metrics_state), world metrics_state)
  /\ params (self metrics_state) !! "windowPeriod" = Some (VStr "1d")
  /\ params (self (set_window_period "1d"
                     (MkState (self metrics_state) (world metrics_state))).2)
       !! "windowPeriod"
     = Some (VTimedelta (MkTimedelta (86400 * US_PER_SECOND))).
Proof.
  assert (__init__ "metrics" ticking_world = (Ok (self metrics_state), world metrics_state))
    as Hinit by reflexivity.
  split; [exact Hinit|].
  pose proof (init_stores "metrics" ticking_world (self metrics_state) (world metrics_state)
                Hinit) as (_ & _ & _ & Hwp & _ & Hset & _).
  split; [exact Hwp | exact Hset].
Defined.

(* ===================================================================== *)
(** * Further properties of [add_filter_conditions] *)
(* ===================================================================== *)

Lemma for_each_app {A} (body : A -> Py unit) (l1 l2 : list A) (st : State) :
  for_each body (l1 ++ l2) st = (for_each body l1 ;; for_each body l2) st.
Proof.
  revert st. induction l1 as [|x l1 IH]; intros st.
  - reflexivity.
  - cbn [app for_each]. unfold mbind, SE_bind in *.
    destruct (body x st) as [[[]|e] st1]; [|reflexivity].
    rewrite IH. reflexivity.
Qed.

(** X1. Handing [add_filter_conditions] a list in two calls, first one
    part and then the rest, is the same as handing it the whole list in
    one call: same result, same exception if a condition fails, same
    state.  So the method only ever appends, and calling it again with
    the same list doubles the clauses. *)
Theorem add_filter_conditions_split (l1 l2 : list pyobj) (st : State) :
  add_filter_conditions (PyList (l1 ++ l2)) st
  = (add_filter_conditions (PyList l1) ;; add_filter_conditions (PyList l2)) st.
Proof. cbn [add_filter_conditions]. apply for_each_app. Qed.

Lemma for_each_after_valid (pre rest : list pyobj) (g : QueryGenerator) (w : World) :
  constructed g -> Forall (fun c => valid_condition c = true) pre ->
  for_each add_filter_condition (pre ++ rest) (MkState g w)
  = for_each add_filter_condition rest
      (MkState (with_filter_conditions g (filter_conditions g +:+ clauses pre)) w).
Proof.
  intros Hg Hpre. rewrite for_each_app. unfold mbind, SE_bind.
  rewrite (for_each_valid pre g w Hg Hpre). reflexivity.
Qed.

(** X2. Which error the first failing condition gives, after any number
    of valid ones: an object that is not a dict is reported as such; a
    dict that lacks one of the three keys is reported as incomplete,
    whatever its operator; a complete dict whose operator is not an
    allowed one is reported with that operator.  The checks are made in
    this order and the later conditions are not looked at. *)
Theorem add_filter_conditions_error_kind (g : QueryGenerator) (w : World)
    (pre : list pyobj) (bad : pyobj) (rest : list pyobj) :
  constructed g ->
  Forall (fun c => valid_condition c = true) pre ->
  let r := (add_filter_conditions (PyList (pre ++ bad :: rest)) (MkState g w)).1 in
  ((forall d, bad <> Dict d) -> r = Raise (ValueError (MustBeDictionary bad)))
  /\ (forall d, bad = Dict d ->
        d !! "field" = None \/ d !! "operator" = None \/ d !! "value" = None ->
        r = Raise (ValueError (MustContainKeys bad)))
  /\ (forall d f o v, bad = Dict d ->
        d !! "field" = Some f -> d !! "operator" = Some o -> d !! "value" = Some v ->
        atom_in o allowed_operators = false ->
        r = Raise (ValueError (InvalidOperator o))).
Proof.
  intros Hg Hpre r. subst r. cbn [add_filter_conditions].
  rewrite (for_each_after_valid pre (bad :: rest) g w Hg Hpre).
  cbn [for_each]. unfold mbind, SE_bind.
  split; [|split].
  - intros Hnot. destruct bad as [a|d|l]; [reflexivity| |reflexivity].
    exfalso. exact (Hnot d eq_refl).
  - intros d -> Hmissing. cbn [add_filter_condition].
    destruct (d !! "field") as [f|]; [|reflexivity].
    destruct (d !! "operator") as [o|]; [|reflexivity].
    destruct (d !! "value") as [v|]; [|reflexivity].
    destruct Hmissing as [H|[H|H]]; discriminate H.
  - intros d f o v -> Hf Ho Hv Hop. cbn [add_filter_condition].
    rewrite Hf, Ho, Hv. destruct Hg as [Hops _].
    run_py. rewrite Hops, Hop. reflexivity.
Qed.

(** X3. What [add_filter_conditions] does with an argument that is
    neither a dict nor a list of conditions: an empty list and the empty
    string are accepted and change nothing; a non-empty string is
    iterated character by character and its first character is rejected
    as not being a dict; a number, a boolean or [None] is not iterable
    ([TypeError]).  The state is unchanged in each case. *)
Theorem add_filter_conditions_other_arguments (st : State) :
  add_filter_conditions (PyList []) st = (Ok tt, st)
  /\ add_filter_conditions (Atom (AStr EmptyString)) st = (Ok tt, st)
  /\ (forall c s,
        add_filter_conditions (Atom (AStr (String c s))) st
        = (Raise (ValueError (MustBeDictionary (Atom (AStr (char c))))), st))
  /\ (forall a, (forall s, a <> AStr s) ->
        add_filter_conditions (Atom a) st = (Raise TypeError, st)).
Proof.
  repeat apply conj; try reflexivity.
  intros a Hnot. destruct a as [s|z|b|]; try reflexivity.
  exfalso. exact (Hnot s eq_refl).
Qed.

Lemma grows_filters_only_refl st : grows_filters_only st st.
Proof.
  repeat apply conj; try reflexivity.
  exists EmptyString. symmetry. apply str_app_empty_r.
Qed.

Lemma grows_filters_only_trans st1 st2 st3 :
  grows_filters_only st1 st2 -> grows_filters_only st2 st3 -> grows_filters_only st1 st3.
Proof.
  intros (A1 & Q1 & P1 & G1 & W1 & s1 & F1) (A2 & Q2 & P2 & G2 & W2 & s2 & F2).
  repeat apply conj; try congruence.
  exists (s1 +:+ s2). rewrite F2, F1. apply str_app_assoc.
Qed.

Lemma keeps_bind {A B} (R : State -> State -> Prop) (m : Py A) (k : A -> Py B) :
  (forall x y z, R x y -> R y z -> R x z) ->
  keeps R m -> (forall a, keeps R (k a)) -> keeps R (m ≫= k).
Proof.
  intros Htrans Hm Hk st. specialize (Hm st).
  unfold mbind, SE_bind. destruct (m st) as [[a|e] st1]; cbn [snd] in *; [|assumption].
  apply (Htrans _ st1); [assumption | apply Hk].
Qed.

Lemma keeps_add_filter_condition c : keeps grows_filters_only (add_filter_condition c).
Proof.
  intros st. unfold add_filter_condition.
  destruct c as [a|d|l]; try apply grows_filters_only_refl.
  destruct (d !! "field") as [f|]; [|apply grows_filters_only_refl].
  destruct (d !! "operator") as [o|]; [|apply grows_filters_only_refl].
  destruct (d !! "value") as [v|]; [|apply grows_filters_only_refl].
  run_py. destruct (negb _); cbn [snd]; [apply grows_filters_only_refl|].
  repeat apply conj; try reflexivity. eexists; reflexivity.
Qed.

Lemma keeps_for_each {A} (body : A -> Py unit) (l : list A) :
  (forall x, keeps grows_filters_only (body x)) ->
  keeps grows_filters_only (for_each body l).
Proof.
  intros Hbody. induction l as [|x l IH]; cbn [for_each].
  - intros st. apply grows_filters_only_refl.
  - apply keeps_bind; [apply grows_filters_only_trans | apply Hbody | intros _; exact IH].
Qed.

(** X4. Whatever it is given and whether it returns or raises,
    [add_filter_conditions] leaves the parameter map, the aggregation
    mode and the world as they were, reads no clock, and changes the
    filter block only by adding text at its end: clauses already there
    are never removed or rewritten. *)
Theorem add_filter_conditions_only_appends (conditions : pyobj) (st : State) :
  let st' := (add_filter_conditions conditions st).2 in
  params (self st') = params (self st)
  /\ aggregation_type (self st') = aggregation_type (self st)
  /\ world st' = world st
  /\ exists suffix,
       filter_conditions (self st') = filter_conditions (self st) +:+ suffix.
Proof.
  assert (keeps grows_filters_only (add_filter_conditions conditions)) as H.
  { unfold add_filter_conditions.
    destruct conditions as [[s|z|b|]|d|l];
      try (apply keeps_for_each; apply keeps_add_filter_condition);
      intros st0; apply grows_filters_only_refl. }
  destruct (H st) as (_ & _ & HP & HG & HW & HF). cbv zeta. auto.
Qed.

(** X5. The value of a condition is put between the quotes of its clause
    as it is, without escaping.  A value that contains a closing quote
    and parenthesis, a line break and the beginning of another clause
    therefore yields, from one valid condition, the text of two clauses:
    the second with any field, any operator (it is never compared with
    the allowed operators) and any value. *)
Theorem filter_value_not_escaped (f o v f2 o2 v2 : string) :
  o ∈ allowed_operators ->
  let injected :=
    v +:+ dquote +:+ ")" +:+ nl +:+ "|> filter(fn: (r) => r[" +:+ dquote +:+ f2 +:+ dquote
    +:+ "] " +:+ o2 +:+ " " +:+ dquote +:+ v2 in
  valid_condition (condition f o injected) = true
  /\ clauses [condition f o injected]
     = filter_clause (AStr f) (AStr o) (AStr v)
       +:+ filter_clause (AStr f2) (AStr o2) (AStr v2).
Proof.
  intros Ho injected. split.
  - unfold valid_condition, condition, condition_parts.
    rewrite lookup_insert_ne, lookup_insert_ne, lookup_insert_eq by discriminate.
    rewrite lookup_insert_ne, lookup_insert_eq by discriminate.
    rewrite lookup_insert_eq. cbn [atom_in]. apply bool_decide_eq_true_2. exact Ho.
  - cbn [clauses]. rewrite str_app_empty_r.
    unfold clause_of, condition, condition_parts.
    rewrite lookup_insert_ne, lookup_insert_ne, lookup_insert_eq by discriminate.
    rewrite lookup_insert_ne, lookup_insert_eq by discriminate.
    rewrite lookup_insert_eq. subst injected. unfold filter_clause. cbn [str].
    rewrite !str_app_assoc. reflexivity.
Qed.

(* ===================================================================== *)
(** * Further properties of [set_time_range] *)
(* ===================================================================== *)

Lemma int_raise (x : intlike) (e : exn) :
  int x = Raise e -> exists s, x = IStr s /\ e = ValueError (InvalidLiteralForInt s).
Proof.
  destruct x as [z|s]; [discriminate|]. cbn [int]. unfold int_of_str.
  match goal with |- context [match ?p with Some _ => _ | None => _ end] => destruct p end;
    [discriminate|].
  intros [= <-]. eauto.
Qed.

(** A negative offset, as [set_time_range] runs on it. *)
Lemma set_time_range_negative_run (g : QueryGenerator) (w : World)
    (days hours : intlike) (d h : Z) :
  int days = Ok d -> int hours = Ok h -> d < 0 \/ h < 0 ->
  set_time_range days hours (MkState g w)
  = (Raise (ValueError NonNegativeIntegers), MkState g w).
Proof.
  intros Hd Hh Hneg. unfold set_time_range, mbind, SE_bind, lift. rewrite Hd, Hh.
  replace ((d <? 0) || (h <? 0)) with true; [reflexivity|].
  symmetry. apply orb_true_iff. destruct Hneg; [left | right]; apply Z.ltb_lt; assumption.
Qed.

(** A call of [set_time_range] that returns: its arguments and its final
    state. *)
Lemma set_time_range_ok (g : QueryGenerator) (w : World) (days hours : intlike) (st' : State) :
  set_time_range days hours (MkState g w) = (Ok tt, st') ->
  exists d h,
    int days = Ok d /\ int hours = Ok h /\ 0 <= d /\ 0 <= h
    /\ (d * 24 + h) / 24 <= MAX_DELTA_DAYS
    /\ representable (clock w (reads w) - (d * 24 + h) * 3600 * US_PER_SECOND) = true
    /\ st' = MkState
               (with_params g
                  (<["timeRangeStop" :=
                       VDatetime (MkDatetime (clock w (S (reads w))) (Some utc))]>
                     (<["timeRangeStart" :=
                          VDatetime (MkDatetime
                                       (clock w (reads w)
                                        - (d * 24 + h) * 3600 * US_PER_SECOND) (Some utc))]>
                        (params g))))
               (MkWorld (clock w) (S (S (reads w))) (utcoffset w)).
Proof.
  intros Hrun.
  destruct (int days) as [d|e] eqn:Hd.
  2:{ unfold set_time_range, mbind, SE_bind, lift in Hrun. rewrite Hd in Hrun.
      discriminate Hrun. }
  destruct (int hours) as [h|e] eqn:Hh.
  2:{ unfold set_time_range, mbind, SE_bind, lift in Hrun. rewrite Hd, Hh in Hrun.
      discriminate Hrun. }
  destruct (Z.lt_ge_cases d 0) as [Hneg|Hdpos].
  { rewrite (set_time_range_negative_run g w days hours d h Hd Hh (or_introl Hneg)) in Hrun.
    discriminate Hrun. }
  destruct (Z.lt_ge_cases h 0) as [Hneg|Hhpos].
  { rewrite (set_time_range_negative_run g w days hours d h Hd Hh (or_intror Hneg)) in Hrun.
    discriminate Hrun. }
  rewrite (set_time_range_run g w days hours d h Hd Hh Hdpos Hhpos) in Hrun.
  cbv zeta in Hrun.
  destruct ((d * 24 + h) / 24 <=? MAX_DELTA_DAYS) eqn:Hrange; [|discriminate Hrun].
  destruct (representable (clock w (reads w) - (d * 24 + h) * 3600 * US_PER_SECOND))
    eqn:Hrep; [|discriminate Hrun].
  injection Hrun as <-. exists d, h. apply Z.leb_le in Hrange. auto 10.
Qed.

(** A call of [set_time_range] that raises leaves the builder as it was. *)
Lemma set_time_range_raise (g : QueryGenerator) (w : World) (days hours : intlike)
    (e : exn) (st' : State) :
  set_time_range days hours (MkState g w) = (Raise e, st') -> self st' = g.
Proof.
  intros Hrun.
  destruct (int days) as [d|e1] eqn:Hd.
  2:{ unfold set_time_range, mbind, SE_bind, lift in Hrun. rewrite Hd in Hrun.
      injection Hrun as _ <-. reflexivity. }
  destruct (int hours) as [h|e1] eqn:Hh.
  2:{ unfold set_time_range, mbind, SE_bind, lift in Hrun. rewrite Hd, Hh in Hrun.
      injection Hrun as _ <-. reflexivity. }
  destruct (Z.lt_ge_cases d 0) as [Hneg|Hdpos].
  { rewrite (set_time_range_negative_run g w days hours d h Hd Hh (or_introl Hneg)) in Hrun.
    injection Hrun as _ <-. reflexivity. }
  destruct (Z.lt_ge_cases h 0) as [Hneg|Hhpos].
  { rewrite (set_time_range_negative_run g w days hours d h Hd Hh (or_intror Hneg)) in Hrun.
    injection Hrun as _ <-. reflexivity. }
  rewrite (set_time_range_run g w days hours d h Hd Hh Hdpos Hhpos) in Hrun.
  cbv zeta in Hrun.
  destruct ((d * 24 + h) / 24 <=? MAX_DELTA_DAYS);
    [destruct (representable _); [discriminate Hrun|]|];
    injection Hrun as _ <-; reflexivity.
Qed.

(** X6. An argument of [set_time_range] that [int] cannot convert (a
    string that is not an integer literal) makes the call fail with
    [int]'s own [ValueError], not with the range error, and nothing is
    changed.  [days] is converted before [hours], and both before the
    sign check: a bad [hours] is reported even when [days] is negative. *)
Theorem set_time_range_not_an_integer (g : QueryGenerator) (w : World)
    (days hours : intlike) (e : exn) :
  int days = Raise e \/ (exists d, int days = Ok d /\ int hours = Raise e) ->
  set_time_range days hours (MkState g w) = (Raise e, MkState g w)
  /\ exists s, (days = IStr s \/ hours = IStr s) /\ e = ValueError (InvalidLiteralForInt s).
Proof.
  intros [Hd|(d & Hd & Hh)].
  - split.
    + unfold set_time_range, mbind, SE_bind, lift. rewrite Hd. reflexivity.
    + destruct (int_raise _ _ Hd) as (s & -> & ->). eauto.
  - split.
    + unfold set_time_range, mbind, SE_bind, lift. rewrite Hd, Hh. reflexivity.
    + destruct (int_raise _ _ Hh) as (s & -> & ->). eauto.
Qed.

(** X7. The two ways a non-negative time range overflows.  An offset of
    more than 999999999 days is refused by [timedelta]: [OverflowError],
    with nothing changed and the clock not read.  An offset that would
    put the start before year 1 is refused by the subtraction:
    [OverflowError] after one reading of the clock, the parameter map
    still unchanged. *)
Theorem set_time_range_overflow (g : QueryGenerator) (w : World)
    (days hours : intlike) (d h : Z) :
  int days = Ok d -> int hours = Ok h -> 0 <= d -> 0 <= h ->
  (MAX_DELTA_DAYS < (d * 24 + h) / 24 ->
     set_time_range days hours (MkState g w) = (Raise OverflowError, MkState g w))
  /\ ((d * 24 + h) / 24 <= MAX_DELTA_DAYS ->
      representable (clock w (reads w) - (d * 24 + h) * 3600 * US_PER_SECOND) = false ->
      set_time_range days hours (MkState g w)
      = (Raise OverflowError, MkState g (MkWorld (clock w) (S (reads w)) (utcoffset w)))).
Proof.
  intros Hdays Hhours Hd Hh.
  rewrite (set_time_range_run g w days hours d h Hdays Hhours Hd Hh). cbv zeta.
  split.
  - intros Hbig. apply Z.leb_gt in Hbig. rewrite Hbig. reflexivity.
  - intros Hrange Hrep. apply Z.leb_le in Hrange. rewrite Hrange, Hrep. reflexivity.
Qed.

(** X8. On every input and with every outcome, [set_time_range] leaves
    the filter block, the aggregation mode and every parameter other
    than [timeRangeStart] and [timeRangeStop] as they were.  The two
    timestamps change together or not at all: a call that raises leaves
    the whole builder unchanged, and a call that returns has stored two
    aware UTC datetimes and read the clock exactly twice. *)
Theorem set_time_range_frame (g : QueryGenerator) (w : World) (days hours : intlike) :
  let r := (set_time_range days hours (MkState g w)).1 in
  let st' := (set_time_range days hours (MkState g w)).2 in
  filter_conditions (self st') = filter_conditions g
  /\ aggregation_type (self st') = aggregation_type g
  /\ (forall key, key <> "timeRangeStart" -> key <> "timeRangeStop" ->
        params (self st') !! key = params g !! key)
  /\ (forall e, r = Raise e -> self st' = g)
  /\ (r = Ok tt ->
        reads (world st') = S (S (reads w))
        /\ exists t1 t2,
             params (self st') !! "timeRangeStart"
             = Some (VDatetime (MkDatetime t1 (Some utc)))
             /\ params (self st') !! "timeRangeStop"
                = Some (VDatetime (MkDatetime t2 (Some utc)))).
Proof.
  intros r st'. subst r st'.
  destruct (set_time_range days hours (MkState g w)) as [[[]|e] st'] eqn:Hrun; cbn [fst snd].
  - destruct (set_time_range_ok g w days hours st' Hrun)
      as (d & h & _ & _ & _ & _ & _ & _ & ->).
    cbn [self world with_params filter_conditions aggregation_type params reads].
    repeat apply conj; try reflexivity.
    + intros key H1 H2. rewrite !lookup_insert_ne by congruence. reflexivity.
    + intros e He. discriminate He.
    + intros _. split; [reflexivity|]. eexists _, _. split.
      * rewrite lookup_insert_ne by discriminate. apply lookup_insert_eq.
      * apply lookup_insert_eq.
  - rewrite (set_time_range_raise g w days hours e st' Hrun).
    repeat apply conj; try reflexivity.
    intros H. discriminate H.
Qed.

(** X9. The last call of [set_time_range] wins: after a call that
    returned, a second call that returns leaves the builder exactly as
    if it had been the only one, made at the time of the second.  The
    first call survives only in the clock readings it took. *)
Theorem set_time_range_last_wins (g : QueryGenerator) (w : World)
    (days1 hours1 days2 hours2 : intlike) (st1 st2 : State) :
  set_time_range days1 hours1 (MkState g w) = (Ok tt, st1) ->
  set_time_range days2 hours2 st1 = (Ok tt, st2) ->
  set_time_range days2 hours2 (MkState g (world st1)) = (Ok tt, st2).
Proof.
  intros H1 H2.
  destruct (set_time_range_ok g w days1 hours1 st1 H1)
    as (d1 & h1 & _ & _ & _ & _ & _ & _ & ->).
  cbn [world].
  destruct (set_time_range_ok _ _ days2 hours2 st2 H2)
    as (d2 & h2 & Hd2 & Hh2 & Hd2pos & Hh2pos & Hrange & Hrep & ->).
  rewrite (set_time_range_run _ _ days2 hours2 d2 h2 Hd2 Hh2 Hd2pos Hh2pos). cbv zeta.
  apply Z.leb_le in Hrange. rewrite Hrange, Hrep.
  do 2 f_equal. unfold with_params. cbn [ALLOWED_OPERATORS query params filter_conditions
    aggregation_type]. f_equal.
  apply map_eq. intros key. rewrite !lookup_insert.
  repeat case_decide; congruence.
Qed.

(* ===================================================================== *)
(** * Further properties of [set_window_period] *)
(* ===================================================================== *)

Lemma unit_is_char (u : string) (mult : Z) :
  unit_seconds u = Some mult -> exists c, u = char c.
Proof.
  unfold unit_seconds.
  destruct (String.eqb_spec u "s") as [->|_]; [eexists; reflexivity|].
  destruct (String.eqb_spec u "m") as [->|_]; [eexists; reflexivity|].
  destruct (String.eqb_spec u "h") as [->|_]; [eexists; reflexivity|].
  destruct (String.eqb_spec u "d") as [->|_]; [eexists; reflexivity|].
  discriminate.
Qed.

Lemma str_last_snoc (p : string) (c : ascii) : str_last (p +:+ char c) = Ok (char c).
Proof.
  induction p as [|x p IH]; [reflexivity|].
  rewrite str_app_cons. cbn [str_last]. rewrite IH.
  destruct (p +:+ char c) eqn:E; [|reflexivity].
  destruct p; discriminate E.
Qed.

Lemma str_init_snoc (p : string) (c : ascii) : str_init (p +:+ char c) = p.
Proof.
  induction p as [|x p IH]; [reflexivity|].
  rewrite str_app_cons. cbn [str_init]. rewrite IH.
  destruct (p +:+ char c) eqn:E; [|reflexivity].
  destruct p; discriminate E.
Qed.

(** X10. The outcomes of [set_window_period], on every string: either it
    returns, having replaced the window period by a duration that is not
    negative and changed nothing else, or it raises and leaves the whole
    state as it was; and the only exceptions are [IndexError] (empty
    string), its two validation errors, [OverflowError] and the
    [ValueError] of [int] on the prefix (a prefix with a digit that is
    not a decimal digit). *)
Theorem set_window_period_outcomes (g : QueryGenerator) (w : World) (wp : string) :
  let r := (set_window_period wp (MkState g w)).1 in
  let st' := (set_window_period wp (MkState g w)).2 in
  (r = Ok tt
   /\ exists t, 0 <= total_us t
        /\ st' = MkState (with_params g (<["windowPeriod" := VTimedelta t]> (params g))) w)
  \/ (st' = MkState g w
      /\ (r = Raise IndexError \/ window_validation_error r \/ r = Raise OverflowError
          \/ (r = Raise (ValueError (InvalidLiteralForInt (str_init wp)))
              /\ isdigit (str_init wp) = true /\ isdecimal (str_init wp) = false))).
Proof.
  cbv zeta. destruct wp as [|c s].
  - right. split; [reflexivity | left; reflexivity].
  - destruct (str_last_cons c s) as [x Hx].
    rewrite (set_window_period_run g w _ _ Hx).
    pose proof (unit_lookup (char x)) as Hu.
    destruct (unit_seconds (char x)) as [mult|].
    + destruct Hu as (_ & _ & Hpos).
      destruct (isdigit (str_init (String c s))) eqn:Hdig.
      * destruct (isdecimal (str_init (String c s))) eqn:Hdec.
        -- destruct (_ <=? _).
           ++ left. split; [reflexivity|]. eexists. split; [|reflexivity].
              cbn [total_us].
              pose proof (decimal_nonneg _ (isdecimal_all_decimal _ Hdec)).
              unfold US_PER_SECOND. nia.
           ++ right. split; [reflexivity | right; right; left; reflexivity].
        -- right. split; [reflexivity|]. right; right; right. auto.
      * right. split; [reflexivity | right; left; right; reflexivity].
    + right. split; [reflexivity | right; left; left; reflexivity].
Qed.

(** X11. A run of decimal digits followed by one of the units s, m, h, d is
    accepted (within the range of [timedelta]) and stores the number the
    digits spell times the unit's seconds; leading zeros are allowed.
    The number need not be positive, whatever the error text says: when
    the digits spell zero, a zero-length window is stored. *)
Theorem set_window_period_digits_unit (g : QueryGenerator) (w : World)
    (digits unit : string) (mult : Z) :
  isdecimal digits = true ->
  unit_seconds unit = Some mult ->
  decimal digits * mult / 86400 <= MAX_DELTA_DAYS ->
  set_window_period (digits +:+ unit) (MkState g w)
  = (Ok tt,
     MkState (with_params g
                (<["windowPeriod" :=
                     VTimedelta (MkTimedelta (decimal digits * mult * US_PER_SECOND))]>
                   (params g))) w)
  /\ (decimal digits = 0 ->
        set_window_period (digits +:+ unit) (MkState g w)
        = (Ok tt,
           MkState (with_params g
                      (<["windowPeriod" := VTimedelta (MkTimedelta 0)]> (params g))) w)).
Proof.
  intros Hdig Hunit Hrange.
  destruct (unit_is_char _ _ Hunit) as [c ->].
  assert (set_window_period (digits +:+ char c) (MkState g w)
          = (Ok tt,
             MkState (with_params g
                        (<["windowPeriod" :=
                             VTimedelta (MkTimedelta (decimal digits * mult * US_PER_SECOND))]>
                           (params g))) w)) as Hrun.
  { rewrite (set_window_period_run g w _ _ (str_last_snoc digits c)).
    rewrite Hunit, str_init_snoc, (isdecimal_isdigit _ Hdig), Hdig.
    apply Z.leb_le in Hrange. rewrite Hrange. reflexivity. }
  split; [exact Hrun|].
  intros Hzero. rewrite Hrun, Hzero. reflexivity.
Qed.

(** A call of [set_window_period] that returns: what it stored. *)
Lemma set_window_period_ok (g : QueryGenerator) (w : World) (wp : string) (st' : State) :
  set_window_period wp (MkState g w) = (Ok tt, st') ->
  exists t,
    st' = MkState (with_params g (<["windowPeriod" := VTimedelta t]> (params g))) w
    /\ forall g1 w1,
         set_window_period wp (MkState g1 w1)
         = (Ok tt,
            MkState (with_params g1 (<["windowPeriod" := VTimedelta t]> (params g1))) w1).
Proof.
  destruct wp as [|c s]; [discriminate|].
  destruct (str_last_cons c s) as [x Hx].
  rewrite (set_window_period_run g w _ _ Hx).
  destruct (unit_seconds (char x)) as [mult|] eqn:Hunit; [|discriminate].
  destruct (isdigit (str_init (String c s))) eqn:Hdig; [|discriminate].
  destruct (isdecimal (str_init (String c s))) eqn:Hdec; [|discriminate].
  destruct (_ <=? _) eqn:Hrange; [|discriminate].
  intros [= <-]. eexists. split; [reflexivity|].
  intros g1 w1. rewrite (set_window_period_run g1 w1 _ _ Hx), Hunit, Hdig, Hdec, Hrange.
  reflexivity.
Qed.

(** X12. The last call of [set_window_period] wins: when a call that
    returned is followed by a second call that returns, the state is the
    one the second call alone would have produced.  In particular,
    repeating a call changes nothing. *)
Theorem set_window_period_last_wins (g : QueryGenerator) (w : World)
    (wp1 wp2 : string) (st1 st2 : State) :
  set_window_period wp1 (MkState g w) = (Ok tt, st1) ->
  set_window_period wp2 st1 = (Ok tt, st2) ->
  set_window_period wp2 (MkState g w) = (Ok tt, st2).
Proof.
  intros H1 H2.
  destruct (set_window_period_ok g w wp1 st1 H1) as (t1 & -> & _).
  destruct (set_window_period_ok _ _ wp2 st2 H2) as (t2 & -> & Hany).
  rewrite Hany. do 2 f_equal. unfold with_params.
  cbn [ALLOWED_OPERATORS query params filter_conditions aggregation_type]. f_equal.
  symmetry. apply insert_insert_eq.
Qed.

(* ===================================================================== *)
(** * The constructor *)
(* ===================================================================== *)

(** The constructor, when the local time 30 days before the first
    reading of the clock is a date of years 1..9999. *)
Lemma init_run (bucket : string) (w : World) :
  representable (clock w (reads w) + utcoffset w - 30 * US_PER_DAY) = true ->
  __init__ bucket w
  = (Ok (MkQueryGenerator allowed_operators query_template
           (<["windowPeriod" := VStr "1d"]>
              (<["timeRangeStop" :=
                   VStr (isoformat (MkDatetime (clock w (S (reads w)) + utcoffset w) None))]>
                 (<["timeRangeStart" :=
                      VStr (isoformat
                              (MkDatetime
                                 (clock w (reads w) + utcoffset w - 30 * US_PER_DAY) None))]>
                    (<["stringParam" := VStr bucket]> ∅))))
           EmptyString "windowed"),
     MkWorld (clock w) (S (S (reads w))) (utcoffset w)).
Proof.
  intros Hrep. unfold __init__.
  cbv beta iota delta [mbind SE_bind mret SE_ret lift datetime_now].
  change (timedelta 30 0 0) with (Ok (MkTimedelta (30 * US_PER_DAY))).
  cbv beta iota zeta delta [datetime_minus ticks total_us tzinfo clock reads utcoffset].
  cbv beta iota zeta delta [clock reads utcoffset] in Hrep.
  rewrite Hrep. reflexivity.
Qed.

(** X13. The constructor succeeds exactly when the local time 30 days
    before its first reading of the clock is representable (not before
    year 1).  It then has read the clock twice and built an instance
    that satisfies the invariant of the methods and whose parameter map
    has the four keys [stringParam], [timeRangeStart], [timeRangeStop]
    and [windowPeriod] and no other.  Otherwise it raises
    [OverflowError] after one reading. *)
Theorem init_outcome (bucket : string) (w : World) :
  let t := clock w (reads w) + utcoffset w - 30 * US_PER_DAY in
  (representable t = true ->
     exists g,
       __init__ bucket w = (Ok g, MkWorld (clock w) (S (S (reads w))) (utcoffset w))
       /\ constructed g
       /\ dom (params g)
          = {[ "stringParam"; "timeRangeStart"; "timeRangeStop"; "windowPeriod" ]})
  /\ (representable t = false ->
        __init__ bucket w
        = (Raise OverflowError, MkWorld (clock w) (S (reads w)) (utcoffset w))).
Proof.
  intros t. split; intros Hrep.
  - eexists. split; [apply (init_run bucket w Hrep)|]. split; [split; reflexivity|].
    cbn [params]. rewrite !dom_insert_L, dom_empty_L. set_solver.
  - unfold __init__.
    cbv beta iota delta [mbind SE_bind mret SE_ret lift datetime_now].
    change (timedelta 30 0 0) with (Ok (MkTimedelta (30 * US_PER_DAY))).
    cbv beta iota zeta delta [datetime_minus ticks total_us tzinfo clock reads utcoffset].
    subst t. cbv beta iota zeta delta [clock reads utcoffset] in Hrep.
    rewrite Hrep. reflexivity.
Qed.

(* ===================================================================== *)
(** * [query_generator] *)
(* ===================================================================== *)

Lemma set_aggregation_type_coerced (c : Config) (st : State) :
  set_aggregation_type (my_aggregation_type c) st
  = (Ok tt, MkState (with_aggregation_type (self st) (my_aggregation_type c)) (world st)).
Proof.
  unfold my_aggregation_type.
  destruct (String.eqb (config_aggregation_type c) "raw"); reflexivity.
Qed.

(** X14. The aggregation type the module passes to the builder is always
    one of the two the setter accepts, so the call of
    [set_aggregation_type] in [query_generator] never raises: it sets
    [raw] when the configured text is exactly [raw] and [windowed] for
    every other text, a misspelt or differently cased [raw] included. *)
Theorem query_generator_aggregation_type (c : Config) (st : State) :
  set_aggregation_type (my_aggregation_type c) st
  = (Ok tt, MkState (with_aggregation_type (self st) (my_aggregation_type c)) (world st))
  /\ (my_aggregation_type c = "raw" <-> config_aggregation_type c = "raw")
  /\ (my_aggregation_type c = "windowed" <-> config_aggregation_type c <> "raw").
Proof.
  split; [apply set_aggregation_type_coerced|].
  unfold my_aggregation_type.
  destruct (String.eqb_spec (config_aggregation_type c) "raw") as [Heq|Hne].
  - split; split; intros H; try assumption; try reflexivity; try discriminate H.
    contradiction.
  - split; split; intros H; try assumption; try reflexivity; try discriminate H.
    contradiction.
Qed.

(** X15. [query_generator] on a well-formed configuration: when the
    constructor succeeds, the time range is a pair of non-negative
    integer texts within range, the window period is a run of decimal
    digits and a unit within range, and the filtered fields are a list of valid
    conditions, it returns the query with one clause per condition and
    the aggregation segment of the configured mode.  Every reading of
    the clock is a different one: the constructor takes two, the stored
    start comes from the third and the stored stop from the fourth.  In
    the parameter map only the bucket is left of what the constructor
    stored: the two timestamps are aware UTC datetimes and the window
    period is a duration. *)
Theorem query_generator_well_formed (c : Config) (w : World)
    (d h : Z) (last : string) (mult : Z) (cs : list pyobj) :
  let n := reads w in
  let offset := (d * 24 + h) * 3600 * US_PER_SECOND in
  let seconds := decimal (str_init (my_window_period c)) * mult in
  representable (clock w n + utcoffset w - 30 * US_PER_DAY) = true ->
  int_of_str (time_range_days c) = Ok d -> int_of_str (time_range_hours c) = Ok h ->
  0 <= d -> 0 <= h -> (d * 24 + h) / 24 <= MAX_DELTA_DAYS ->
  representable (clock w (S (S n)) - offset) = true ->
  str_last (my_window_period c) = Ok last -> unit_seconds last = Some mult ->
  isdecimal (str_init (my_window_period c)) = true ->
  seconds / 86400 <= MAX_DELTA_DAYS ->
  my_filtered_fields c = PyList cs ->
  Forall (fun x => valid_condition x = true) cs ->
  exists p,
    query_generator c w
    = (Ok (rendered (clauses cs) (aggregation_of (my_aggregation_type c)), p),
       MkWorld (clock w) (S (S (S (S n)))) (utcoffset w))
    /\ p !! "stringParam" = Some (VStr (my_bucket c))
    /\ p !! "timeRangeStart"
       = Some (VDatetime (MkDatetime (clock w (S (S n)) - offset) (Some utc)))
    /\ p !! "timeRangeStop" = Some (VDatetime (MkDatetime (clock w (S (S (S n)))) (Some utc)))
    /\ p !! "windowPeriod" = Some (VTimedelta (MkTimedelta (seconds * US_PER_SECOND)))
    /\ dom p = {[ "stringParam"; "timeRangeStart"; "timeRangeStop"; "windowPeriod" ]}.
Proof.
  intros n offset seconds Hinit Hdays Hhours Hd Hh Hrange Hrep Hlast Hunit Hdig Hwin
    Hfields Hcs.
  unfold query_generator. rewrite (init_run (my_bucket c) w Hinit).
  cbv beta iota. unfold mbind at 1, SE_bind at 1.
  rewrite (set_time_range_run _ _ (IStr (time_range_days c)) (IStr (time_range_hours c))
             d h Hdays Hhours Hd Hh).
  cbv zeta. cbn [clock reads utcoffset]. fold n offset.
  apply Z.leb_le in Hrange. rewrite Hrange, Hrep.
  unfold mbind at 1, SE_bind at 1. rewrite set_aggregation_type_coerced.
  cbn [self world].
  unfold mbind at 1, SE_bind at 1. rewrite (set_window_period_run _ _ _ _ Hlast).
  rewrite Hunit, (isdecimal_isdigit _ Hdig), Hdig. fold seconds.
  apply Z.leb_le in Hwin. rewrite Hwin.
  unfold mbind at 1, SE_bind at 1. rewrite Hfields. cbn [add_filter_conditions].
  rewrite for_each_valid by (try assumption; split; reflexivity).
  rewrite generate_constructed by (split; reflexivity).
  cbn [self world with_params with_aggregation_type with_filter_conditions
         ALLOWED_OPERATORS query params filter_conditions aggregation_type].
  eexists. split; [reflexivity|].
  repeat apply conj.
  - rewrite !lookup_insert_ne by discriminate. apply lookup_insert_eq.
  - rewrite !lookup_insert_ne by discriminate. apply lookup_insert_eq.
  - rewrite !lookup_insert_ne by discriminate. apply lookup_insert_eq.
  - apply lookup_insert_eq.
  - rewrite !dom_insert_L, dom_empty_L. set_solver.
Qed.

(** X16. [query_generator] sets the time range first: when the
    constructor succeeds and the configured days or hours are negative,
    the call fails with the range error after the constructor's two
    readings of the clock, whatever the window period, the filtered
    fields and the aggregation type are; they are not looked at. *)
Theorem query_generator_negative_range (c : Config) (w : World) (d h : Z) :
  representable (clock w (reads w) + utcoffset w - 30 * US_PER_DAY) = true ->
  int_of_str (time_range_days c) = Ok d -> int_of_str (time_range_hours c) = Ok h ->
  d < 0 \/ h < 0 ->
  query_generator c w
  = (Raise (ValueError NonNegativeIntegers),
     MkWorld (clock w) (S (S (reads w))) (utcoffset w)).
Proof.
  intros Hinit Hdays Hhours Hneg.
  unfold query_generator. rewrite (init_run (my_bucket c) w Hinit).
  cbv beta iota. unfold mbind at 1, SE_bind at 1.
  rewrite (set_time_range_negative_run _ _ (IStr (time_range_days c))
             (IStr (time_range_hours c)) d h Hdays Hhours Hneg).
  reflexivity.
Qed.

(* ===================================================================== *)
(** * The name of the CSV file *)
(* ===================================================================== *)

Lemma second_of_ticks (t : Z) :
  t / US_PER_DAY = t / US_PER_SECOND / 86400
  /\ t mod US_PER_DAY / US_PER_SECOND = (t / US_PER_SECOND) mod 86400.
Proof.
  unfold US_PER_DAY. split.
  - rewrite (Z.mul_comm 86400). symmetry. apply Z.div_div; unfold US_PER_SECOND; lia.
  - rewrite (Z.mul_comm 86400).
    rewrite Z.rem_mul_r by (unfold US_PER_SECOND; lia).
    rewrite (Z.mul_comm US_PER_SECOND), Z.div_add by (unfold US_PER_SECOND; lia).
    rewrite Z.div_small; [lia|]. apply Z.mod_pos_bound. unfold US_PER_SECOND; lia.
Qed.

(** X17. The name of the CSV file has a resolution of one second: two
    exports whose local times fall in the same second get the same file
    name (and the second, opening the file for writing, replaces the
    first), however the platform prints the year. *)
Theorem csv_filename_same_second (year_text : Z -> string) (d1 d2 : Datetime) :
  ticks d1 / US_PER_SECOND = ticks d2 / US_PER_SECOND ->
  csv_filename year_text d1 = csv_filename year_text d2.
Proof.
  intros Hsame. unfold csv_filename.
  destruct (second_of_ticks (ticks d1)) as [Hday1 Hsec1].
  destruct (second_of_ticks (ticks d2)) as [Hday2 Hsec2].
  rewrite Hday1, Hsec1, Hday2, Hsec2, Hsame. reflexivity.
Qed.

(* ===================================================================== *)
(** * The further properties at concrete inputs *)
(* ===================================================================== *)

Lemma add_filter_conditions_error_kind_witness :
  constructed (self metrics_state)
  /\ Forall (fun c => valid_condition c = true) [host_condition]
  /\ (add_filter_conditions (PyList ([host_condition] ++ Atom (AInt 5) :: [host_condition]))
        (MkState (self metrics_state) (world metrics_state))).1
     = Raise (ValueError (MustBeDictionary (Atom (AInt 5)))).
Proof.
  assert (Forall (fun c => valid_condition c = true) [host_condition]) as Hcs
    by (constructor; [reflexivity | constructor]).
  split; [exact metrics_constructed|]. split; [exact Hcs|].
  refine (proj1 (add_filter_conditions_error_kind (self metrics_state) (world metrics_state)
                   [host_condition] (Atom (AInt 5)) [host_condition]
                   metrics_constructed Hcs) _).
  intros d H. discriminate H.
Defined.

Lemma add_filter_conditions_other_arguments_witness :
  (forall s, AInt 5 <> AStr s)
  /\ add_filter_conditions (Atom (AInt 5)) metrics_state = (Raise TypeError, metrics_state).
Proof.
  assert (forall s, AInt 5 <> AStr s) as Hnot by (intros s H; discriminate H).
  split; [exact Hnot|].
  exact (proj2 (proj2 (proj2 (add_filter_conditions_other_arguments metrics_state)))
           (AInt 5) Hnot).
Defined.

Lemma filter_value_not_escaped_witness :
  "==" ∈ allowed_operators
  /\ valid_condition
       (condition "host" "=="
          ("a" +:+ dquote +:+ ")" +:+ nl +:+ "|> filter(fn: (r) => r[" +:+ dquote +:+ "x"
           +:+ dquote +:+ "] " +:+ "=~" +:+ " " +:+ dquote +:+ "b")) = true.
Proof.
  assert ("==" ∈ allowed_operators) as Hop by (apply elem_of_cons; left; reflexivity).
  split; [exact Hop|].
  exact (proj1 (filter_value_not_escaped "host" "==" "a" "x" "=~" "b" Hop)).
Defined.

Lemma set_time_range_not_an_integer_witness :
  (int (IStr "abc") = Raise (ValueError (InvalidLiteralForInt "abc"))
   \/ exists d, int (IStr "abc") = Ok d
        /\ int (IInt (-1)) = Raise (ValueError (InvalidLiteralForInt "abc")))
  /\ set_time_range (IStr "abc") (IInt (-1))
       (MkState (self metrics_state) (world metrics_state))
     = (Raise (ValueError (InvalidLiteralForInt "abc")),
        MkState (self metrics_state) (world metrics_state)).
Proof.
  assert (int (IStr "abc") = Raise (ValueError (InvalidLiteralForInt "abc"))
          \/ exists d, int (IStr "abc") = Ok d
               /\ int (IInt (-1)) = Raise (ValueError (InvalidLiteralForInt "abc"))) as H
    by (left; reflexivity).
  split; [exact H|].
  exact (proj1 (set_time_range_not_an_integer (self metrics_state) (world metrics_state)
                  (IStr "abc") (IInt (-1)) _ H)).
Defined.

Lemma set_time_range_overflow_witness :
  int (IInt 800000) = Ok 800000 /\ int (IInt 0) = Ok 0 /\ 0 <= 800000 /\ 0 <= 0
  /\ (800000 * 24 + 0) / 24 <= MAX_DELTA_DAYS
  /\ representable (clock (world metrics_state) (reads (world metrics_state))
                    - (800000 * 24 + 0) * 3600 * US_PER_SECOND) = false
  /\ set_time_range (IInt 800000) (IInt 0)
       (MkState (self metrics_state) (world metrics_state))
     = (Raise OverflowError,
        MkState (self metrics_state)
          (MkWorld (clock (world metrics_state)) (S (reads (world metrics_state)))
             (utcoffset (world metrics_state)))).
Proof.
  assert (0 <= 800000) as Hd by lia.
  assert (0 <= 0) as Hh by lia.
  assert ((800000 * 24 + 0) / 24 <= MAX_DELTA_DAYS) as Hrange by (vm_compute; discriminate).
  assert (representable (clock (world metrics_state) (reads (world metrics_state))
                         - (800000 * 24 + 0) * 3600 * US_PER_SECOND) = false) as Hrep
    by (vm_compute; reflexivity).
  split; [reflexivity|]. split; [reflexivity|]. split; [exact Hd|]. split; [exact Hh|].
  split; [exact Hrange|]. split; [exact Hrep|].
  exact (proj2 (set_time_range_overflow (self metrics_state) (world metrics_state)
                  (IInt 800000) (IInt 0) 800000 0 eq_refl eq_refl Hd Hh) Hrange Hrep).
Defined.

Lemma set_time_range_frame_witness :
  "stringParam" <> "timeRangeStart" /\ "stringParam" <> "timeRangeStop"
  /\ params (self (set_time_range (IInt 1) (IInt 0)
                     (MkState (self metrics_state) (world metrics_state))).2)
       !! "stringParam"
     = params (self metrics_state) !! "stringParam".
Proof.
  assert ("stringParam" <> "timeRangeStart") as H1 by discriminate.
  assert ("stringParam" <> "timeRangeStop") as H2 by discriminate.
  split; [exact H1|]. split; [exact H2|].
  exact (proj1 (proj2 (proj2 (set_time_range_frame (self metrics_state)
                                (world metrics_state) (IInt 1) (IInt 0))))
           "stringParam" H1 H2).
Defined.

Lemma set_time_range_last_wins_witness :
  let st0 := MkState (self metrics_state) (world metrics_state) in
  let st1 := (set_time_range (IInt 7) (IInt 0) st0).2 in
  let st2 := (set_time_range (IInt 1) (IInt 12) st1).2 in
  set_time_range (IInt 7) (IInt 0) st0 = (Ok tt, st1)
  /\ set_time_range (IInt 1) (IInt 12) st1 = (Ok tt, st2)
  /\ set_time_range (IInt 1) (IInt 12) (MkState (self metrics_state) (world st1))
     = (Ok tt, st2).
Proof.
  intros st0 st1 st2.
  assert (set_time_range (IInt 7) (IInt 0) st0 = (Ok tt, st1)) as H1 by reflexivity.
  assert (set_time_range (IInt 1) (IInt 12) st1 = (Ok tt, st2)) as H2 by reflexivity.
  split; [exact H1|]. split; [exact H2|].
  exact (set_time_range_last_wins (self metrics_state) (world metrics_state)
           (IInt 7) (IInt 0) (IInt 1) (IInt 12) st1 st2 H1 H2).
Defined.

Lemma set_window_period_digits_unit_witness :
  isdecimal "000" = true /\ unit_seconds "h" = Some 3600
  /\ decimal "000" * 3600 / 86400 <= MAX_DELTA_DAYS
  /\ decimal "000" = 0
  /\ set_window_period ("000" +:+ "h") (MkState (self metrics_state) (world metrics_state))
     = (Ok tt,
        MkState (with_params (self metrics_state)
                   (<["windowPeriod" := VTimedelta (MkTimedelta 0)]>
                      (params (self metrics_state))))
          (world metrics_state)).
Proof.
  assert (decimal "000" * 3600 / 86400 <= MAX_DELTA_DAYS) as Hrange
    by (vm_compute; discriminate).
  split; [reflexivity|]. split; [reflexivity|]. split; [exact Hrange|].
  split; [reflexivity|].
  exact (proj2 (set_window_period_digits_unit (self metrics_state) (world metrics_state)
                  "000" "h" 3600 eq_refl eq_refl Hrange) eq_refl).
Defined.

Lemma set_window_period_last_wins_witness :
  let st0 := MkState (self metrics_state) (world metrics_state) in
  let st1 := (set_window_period "5m" st0).2 in
  let st2 := (set_window_period "2h" st1).2 in
  set_window_period "5m" st0 = (Ok tt, st1)
  /\ set_window_period "2h" st1 = (Ok tt, st2)
  /\ set_window_period "2h" st0 = (Ok tt, st2).
Proof.
  intros st0 st1 st2.
  assert (set_window_period "5m" st0 = (Ok tt, st1)) as H1 by reflexivity.
  assert (set_window_period "2h" st1 = (Ok tt, st2)) as H2 by reflexivity.
  split; [exact H1|]. split; [exact H2|].
  exact (set_window_period_last_wins (self metrics_state) (world metrics_state)
           "5m" "2h" st1 st2 H1 H2).
Defined.

Lemma init_outcome_witness :
  representable (clock ticking_world (reads ticking_world) + utcoffset ticking_world
                 - 30 * US_PER_DAY) = true
  /\ exists g,
       __init__ "metrics" ticking_world
       = (Ok g, MkWorld (clock ticking_world) (S (S (reads ticking_world)))
                  (utcoffset ticking_world))
       /\ constructed g
       /\ dom (params g)
          = {[ "stringParam"; "timeRangeStart"; "timeRangeStop"; "windowPeriod" ]}.
Proof.
  assert (representable (clock ticking_world (reads ticking_world) + utcoffset ticking_world
                         - 30 * US_PER_DAY) = true) as Hrep by (vm_compute; reflexivity).
  split; [exact Hrep|].
  exact (proj1 (init_outcome "metrics" ticking_world) Hrep).
Defined.

Lemma query_generator_well_formed_witness :
  exists p,
    query_generator metrics_config ticking_world
    = (Ok (rendered (clauses [host_condition])
             (aggregation_of (my_aggregation_type metrics_config)), p),
       MkWorld (clock ticking_world) 4 (utcoffset ticking_world))
    /\ p !! "windowPeriod" = Some (VTimedelta (MkTimedelta (3600 * US_PER_SECOND)))
    /\ dom p = {[ "stringParam"; "timeRangeStart"; "timeRangeStop"; "windowPeriod" ]}.
Proof.
  assert (Forall (fun x => valid_condition x = true) [host_condition]) as Hcs
    by (constructor; [reflexivity | constructor]).
  assert (representable (clock ticking_world (reads ticking_world) + utcoffset ticking_world
                         - 30 * US_PER_DAY) = true) as Hinit by (vm_compute; reflexivity).
  assert (0 <= 1) as Hd by lia.
  assert (0 <= 0) as Hh by lia.
  assert ((1 * 24 + 0) / 24 <= MAX_DELTA_DAYS) as Hrange by (vm_compute; discriminate).
  assert (representable (clock ticking_world (S (S (reads ticking_world)))
                         - (1 * 24 + 0) * 3600 * US_PER_SECOND) = true) as Hrep
    by (vm_compute; reflexivity).
  assert (decimal (str_init (my_window_period metrics_config)) * 3600 / 86400
          <= MAX_DELTA_DAYS) as Hwin by (vm_compute; discriminate).
  destruct (query_generator_well_formed metrics_config ticking_world 1 0 "h" 3600
              [host_condition] Hinit eq_refl eq_refl Hd Hh Hrange Hrep
              eq_refl eq_refl eq_refl Hwin eq_refl Hcs)
    as (p & Hrun & _ & _ & _ & Hwp & Hdom).
  exists p. split; [exact Hrun|]. split; [exact Hwp | exact Hdom].
Defined.

Lemma query_generator_negative_range_witness :
  let c := MkConfig "metrics" "-1" "0" "nonsense" (Atom ANone) "raw" in
  representable (clock ticking_world (reads ticking_world) + utcoffset ticking_world
                 - 30 * US_PER_DAY) = true
  /\ int_of_str (time_range_days c) = Ok (-1) /\ int_of_str (time_range_hours c) = Ok 0
  /\ (-1 < 0 \/ 0 < 0)
  /\ query_generator c ticking_world
     = (Raise (ValueError NonNegativeIntegers),
        MkWorld (clock ticking_world) (S (S (reads ticking_world)))
          (utcoffset ticking_world)).
Proof.
  intros c.
  assert (representable (clock ticking_world (reads ticking_world) + utcoffset ticking_world
                         - 30 * US_PER_DAY) = true) as Hinit by (vm_compute; reflexivity).
  assert (-1 < 0 \/ 0 < 0) as Hneg by (left; lia).
  split; [exact Hinit|]. split; [reflexivity|]. split; [reflexivity|]. split; [exact Hneg|].
  exact (query_generator_negative_range c ticking_world (-1) 0 Hinit eq_refl eq_refl Hneg).
Defined.

Lemma csv_filename_same_second_witness :
  let d1 := MkDatetime (738944 * US_PER_DAY + 5 * US_PER_SECOND) None in
  let d2 := MkDatetime (738944 * US_PER_DAY + 5 * US_PER_SECOND + 999999) None in
  ticks d1 / US_PER_SECOND = ticks d2 / US_PER_SECOND
  /\ csv_filename (zfill 4) d1 = csv_filename (zfill 4) d2
  /\ csv_filename (zfill 4) d1 = "2024-02-29_00-00-05.csv".
Proof.
  intros d1 d2.
  assert (ticks d1 / US_PER_SECOND = ticks d2 / US_PER_SECOND) as Hsame
    by (vm_compute; reflexivity).
  split; [exact Hsame|].
  split; [exact (csv_filename_same_second (zfill 4) d1 d2 Hsame) | vm_compute; reflexivity].
Defined.
